(** * mini-rxjs: a shallow embedding of [src/index.ts]

    The library is a push-based stream engine: [Subscription] (an ordered
    registry of teardown actions), [Subscriber] (an endpoint wrapping a
    partial observer), [Observable] (a lazy producer), [pipeFromArray] and
    the two operators [map] and [debounceTime].

    Objects with mutable fields live in a heap inside [World]; a reference to
    a [Subscriber] carries its heap location together with its immutable
    fields ([observer], [type]).  Closures of the library are kept as data
    (the inline observers of [map] and [debounceTime], the timer callbacks of
    [debounceTime]); their closure variables ([i], [time]) are heap cells.
    Code supplied by the user of the library (observer handlers, cleanup
    procedures) is opaque: each invocation is recorded, with the virtual
    time, in the world's trace. *)

From stdpp Require Import gmap strings list.
From Stdlib Require Import Lia.

Definition loc := nat.

(** ** pipeFromArray (index.ts, lines 23-62) *)

Definition pipeFromArray {T : Type} (fns : list (T → T)) : T → T :=
  match fns with
  | [] => fun input => input
  | [fn] => fn
  | _ => fun input => fold_left (fun prev fn => fn prev) fns input
  end.

(** The wording of the specification for two or more functions:
    [fns[n-1](...fns[1](fns[0](input)))], the last function outermost. *)
Fixpoint nested_application {T : Type} (rev_fns : list (T → T)) (input : T) : T :=
  match rev_fns with
  | [] => input
  | fn :: inner => fn (nested_application inner input)
  end.

Section Model.
Context {V : Type}.

(** ** Data *)

(** [Exclude<TeardownLogic, void>]: what a [_teardowns] array holds. *)
Inductive Teardown :=
| TdFunction (name : string)        (* a plain procedure [() => void] *)
| TdUnsubscribable (name : string)  (* a user object with [unsubscribe()] *)
| TdSubscription (s : loc).         (* a Subscription of this library *)

(** [TeardownLogic]: [None] is [void]. *)
Definition TeardownLogic := option Teardown.

(** [Partial<Observer<T>>] and the [Subscriber] wrapping it. *)
Inductive Observer :=
| UserObserver (name : string) (has_next has_error has_complete : bool)
| MapObserver (project : V → nat → V) (i : loc) (subscriber : Subscriber)
| DebounceObserver (time : loc) (delay : nat) (subscriber : Subscriber)
with Subscriber :=
| mkSubscriber (l : loc) (observer : Observer) (type : string).

Definition Subscriber_loc (s : Subscriber) : loc :=
  match s with mkSubscriber l _ _ => l end.
Definition Subscriber_observer (s : Subscriber) : Observer :=
  match s with mkSubscriber _ o _ => o end.
Definition Subscriber_type (s : Subscriber) : string :=
  match s with mkSubscriber _ _ t => t end.

(** Invocations of user code. *)
Inductive Event :=
| ObsNext (o : string) (value : V)
| ObsError (o : string) (err : V)
| ObsComplete (o : string)
| Called (f : string)          (* [teardown()] *)
| Unsubscribed (u : string).   (* [teardown.unsubscribe()] *)

(** The mutable fields of a Subscription / Subscriber object. *)
Record Object := mkObject { _teardowns : list Teardown; isStopped : bool }.

(** The callback [() => subscriber.next(value)] handed to [setTimeout]. *)
Inductive Callback :=
| TimerNext (subscriber : Subscriber) (value : V).

Record Timer := mkTimer { handle : nat; due : nat; callback : Callback }.

Record World := mkWorld {
  objects : gmap loc Object;     (* Subscription objects *)
  next_object : loc;
  variables : gmap loc nat;      (* closure variables [i] and [time] *)
  next_variable : loc;
  timers : list Timer;           (* pending timers of the host *)
  next_handle : nat;             (* timer handles are positive *)
  now : nat;                     (* virtual clock *)
  trace : list (nat * Event)     (* user code invoked so far, with its time *)
}.

Definition empty_world : World :=
  mkWorld ∅ 0 ∅ 0 [] 1 0 [].

(** ** Primitive state access *)

Definition new_object : Object := mkObject [] false.

Definition object_at (w : World) (l : loc) : Object :=
  default new_object (objects w !! l).

Definition set_object (l : loc) (o : Object) (w : World) : World :=
  mkWorld (<[l := o]> (objects w)) (next_object w) (variables w)
          (next_variable w) (timers w) (next_handle w) (now w) (trace w).

Definition alloc_object (w : World) : loc * World :=
  (next_object w,
   mkWorld (<[next_object w := new_object]> (objects w)) (S (next_object w))
           (variables w) (next_variable w) (timers w) (next_handle w)
           (now w) (trace w)).

Definition read (x : loc) (w : World) : nat :=
  default 0 (variables w !! x).

Definition write (x : loc) (n : nat) (w : World) : World :=
  mkWorld (objects w) (next_object w) (<[x := n]> (variables w))
          (next_variable w) (timers w) (next_handle w) (now w) (trace w).

(** [let x = n] in a closure: a fresh cell. *)
Definition alloc_variable (n : nat) (w : World) : loc * World :=
  (next_variable w,
   mkWorld (objects w) (next_object w) (<[next_variable w := n]> (variables w))
           (S (next_variable w)) (timers w) (next_handle w) (now w) (trace w)).

Definition log (e : Event) (w : World) : World :=
  mkWorld (objects w) (next_object w) (variables w) (next_variable w)
          (timers w) (next_handle w) (now w) (trace w ++ [(now w, e)]).

(** [setTimeout(cb, delay)]: returns a fresh positive handle. *)
Definition setTimeout (cb : Callback) (delay : nat) (w : World) : nat * World :=
  (next_handle w,
   mkWorld (objects w) (next_object w) (variables w) (next_variable w)
           (timers w ++ [mkTimer (next_handle w) (now w + delay) cb])
           (S (next_handle w)) (now w) (trace w)).

(** [clearTimeout(h)]: drops the pending timer with that handle, if any. *)
Definition clearTimeout (h : nat) (w : World) : World :=
  mkWorld (objects w) (next_object w) (variables w) (next_variable w)
          (filter (fun t => handle t ≠ h) (timers w))
          (next_handle w) (now w) (trace w).

Definition set_now (t : nat) (w : World) : World :=
  mkWorld (objects w) (next_object w) (variables w) (next_variable w)
          (timers w) (next_handle w) t (trace w).

(** ** Subscription (index.ts, lines 65-83) *)

(** [array.forEach] over a snapshot; a callback that does not return aborts. *)
Fixpoint forEach {A : Type} (f : A → World → option World) (l : list A)
    (w : World) : option World :=
  match l with
  | [] => Some w
  | x :: l' => w' ← f x w; forEach f l' w'
  end.

(** [fuel] bounds the nesting of [unsubscribe] calls through subscriptions
    registered in one another. *)
Fixpoint Subscription_unsubscribe (fuel : nat) (this : loc) (w : World)
    : option World :=
  match fuel with
  | 0 => None
  | S fuel' =>
      forEach (fun teardown w =>
                 match teardown with
                 | TdFunction f => Some (log (Called f) w)
                 | TdUnsubscribable u => Some (log (Unsubscribed u) w)
                 | TdSubscription s => Subscription_unsubscribe fuel' s w
                 end)
              (_teardowns (object_at w this)) w
  end.

Definition Subscription_add (this : loc) (teardown : TeardownLogic) (w : World)
    : World :=
  match teardown with
  | Some td =>
      set_object this
        (mkObject (_teardowns (object_at w this) ++ [td])
                  (isStopped (object_at w this))) w
  | None => w
  end.

(** ** Subscriber (index.ts, lines 86-123) *)

Definition set_isStopped (this : loc) (w : World) : World :=
  set_object this (mkObject (_teardowns (object_at w this)) true) w.

(** Which handlers the wrapped observer defines; the inline observers of
    the operators define all three. *)
Definition has_next (o : Observer) : bool :=
  match o with UserObserver _ hn _ _ => hn | _ => true end.
Definition has_error (o : Observer) : bool :=
  match o with UserObserver _ _ he _ => he | _ => true end.
Definition has_complete (o : Observer) : bool :=
  match o with UserObserver _ _ _ hc => hc | _ => true end.

Fixpoint Subscriber_next (this : Subscriber) (value : V) (w : World) : World :=
  match this with
  | mkSubscriber l observer _ =>
      if has_next observer && negb (isStopped (object_at w l))
      then Observer_next observer value w
      else w
  end
with Observer_next (o : Observer) (value : V) (w : World) : World :=
  match o with
  | UserObserver name _ _ _ => log (ObsNext name value) w
  | MapObserver project i subscriber =>
      (* subscriber.next(project(value, i++)) *)
      let index := read i w in
      Subscriber_next subscriber (project value index) (write i (S index) w)
  | DebounceObserver time delay subscriber =>
      let w1 := if decide (read time w = 0) then w
                else clearTimeout (read time w) w in
      let '(h, w2) := setTimeout (TimerNext subscriber value) delay w1 in
      write time h w2
  end.

Fixpoint Subscriber_error (this : Subscriber) (value : V) (w : World) : World :=
  match this with
  | mkSubscriber l observer _ =>
      let w1 := set_isStopped l w in
      if has_error observer then Observer_error observer value w1 else w1
  end
with Observer_error (o : Observer) (err : V) (w : World) : World :=
  match o with
  | UserObserver name _ _ _ => log (ObsError name err) w
  | MapObserver _ _ subscriber => Subscriber_error subscriber err w
  | DebounceObserver time _ subscriber =>
      Subscriber_error subscriber err (clearTimeout (read time w) w)
  end.

Fixpoint Subscriber_complete (fuel : nat) (this : Subscriber) (w : World)
    : option World :=
  match this with
  | mkSubscriber l observer _ =>
      let w1 := set_isStopped l w in
      w2 ← (if has_complete observer then Observer_complete fuel observer w1
            else Some w1);
      (* if (this.unsubscribe): the inherited method always exists *)
      Subscription_unsubscribe fuel l w2
  end
with Observer_complete (fuel : nat) (o : Observer) (w : World) : option World :=
  match o with
  | UserObserver name _ _ _ => Some (log (ObsComplete name) w)
  | MapObserver _ _ subscriber => Subscriber_complete fuel subscriber w
  | DebounceObserver time _ subscriber =>
      Subscriber_complete fuel subscriber (clearTimeout (read time w) w)
  end.

(** ** Observable (index.ts, lines 126-145) *)

(** A producer [(observer) => TeardownLogic]; it may run [complete], so it
    takes the fuel of [Subscription_unsubscribe] and may fail to return. *)
Definition Producer :=
  Subscriber → nat → World → option (TeardownLogic * World).

Record Observable := mkObservable {
  _subscribe : Producer;
  Observable_type : string
}.

(** [new Observable(_subscribe)]: the label defaults to ["user"]. *)
Definition new_Observable (_subscribe : Producer) : Observable :=
  mkObservable _subscribe "user".

Definition Observable_subscribe (this : Observable) (observer : Observer)
    (fuel : nat) (w : World) : option (Subscriber * World) :=
  let '(l, w1) := alloc_object w in
  let subscriber := mkSubscriber l observer (Observable_type this) in
  '(teardown, w2) ← _subscribe this subscriber fuel w1;
  Some (subscriber, Subscription_add l teardown w2).

Definition Observable_pipe (this : Observable)
    (operations : list (Observable → Observable)) : Observable :=
  pipeFromArray operations this.

(** ** Operators (index.ts, lines 148-193) *)

Definition map (project : V → nat → V) : Observable → Observable :=
  fun observable =>
    mkObservable
      (fun subscriber fuel w =>
         let '(i, w1) := alloc_variable 0 w in
         '(subcription, w2) ←
           Observable_subscribe observable (MapObserver project i subscriber)
                                fuel w1;
         Some (Some (TdSubscription (Subscriber_loc subcription)), w2))
      "map".

(** The call [debounceTime(delay)] itself allocates the variable [time];
    the operator it returns closes over that one cell. *)
Definition debounceTime (delay : nat) (w : World)
    : (Observable → Observable) * World :=
  let '(time, w1) := alloc_variable 0 w in
  (fun observable =>
     mkObservable
       (fun subscriber fuel w =>
          '(subcription, w2) ←
            Observable_subscribe observable
              (DebounceObserver time delay subscriber) fuel w;
          Some (Some (TdSubscription (Subscriber_loc subcription)), w2))
       "debounceTime",
   w1).

(** ** The host's timer queue *)

(** The pending timer that is due first; among equal due times the one
    registered first. *)
Fixpoint earliest (ts : list Timer) : option Timer :=
  match ts with
  | [] => None
  | t :: ts' =>
      match earliest ts' with
      | Some t' => if decide (due t' < due t) then Some t' else Some t
      | None => Some t
      end
  end.

Definition next_timer (t : nat) (w : World) : option Timer :=
  match earliest (timers w) with
  | Some tm => if decide (due tm ≤ t) then Some tm else None
  | None => None
  end.

Definition fire (tm : Timer) (w : World) : World :=
  let w1 := set_now (now w `max` due tm) (clearTimeout (handle tm) w) in
  match callback tm with
  | TimerNext subscriber value => Subscriber_next subscriber value w1
  end.

(** Let virtual time pass until [t], running every timer that comes due;
    [fuel] bounds the number of callbacks run. *)
Fixpoint run_until (fuel : nat) (t : nat) (w : World) : option World :=
  match next_timer t w with
  | None => Some (set_now (now w `max` t) w)
  | Some tm =>
      match fuel with
      | 0 => None
      | S fuel' => run_until fuel' t (fire tm w)
      end
  end.

(** ** Producers and call sequences used to exercise the library *)

Inductive Notification :=
| N (value : V)
| E (err : V)
| C.

Definition notify (subscriber : Subscriber) (fuel : nat) (n : Notification)
    (w : World) : option World :=
  match n with
  | N value => Some (Subscriber_next subscriber value w)
  | E err => Some (Subscriber_error subscriber err w)
  | C => Subscriber_complete fuel subscriber w
  end.

(** A producer that delivers [script] synchronously and returns [teardown]. *)
Definition synchronous (script : list Notification) (teardown : TeardownLogic)
    : Producer :=
  fun observer fuel w =>
    w' ← forEach (notify observer fuel) script w;
    Some (teardown, w').

(** A producer in the style of the demonstration script: for every
    [(t, v)] it calls [setTimeout(() => observer.next(v), t)]. *)
Definition timed (schedule : list (nat * V)) (teardown : TeardownLogic)
    : Producer :=
  fun observer fuel w =>
    Some (teardown,
          fold_left (fun w '(t, v) => (setTimeout (TimerNext observer v) t w).2)
                    schedule w).

(** A call on an endpoint or a registry, or the passing of time. *)
Inductive Call :=
| CallNext (s : Subscriber) (value : V)
| CallError (s : Subscriber) (err : V)
| CallComplete (s : Subscriber)
| CallUnsubscribe (s : loc)
| CallAdd (s : loc) (teardown : TeardownLogic)
| Wait (t : nat).

Definition call (fuel : nat) (c : Call) (w : World) : option World :=
  match c with
  | CallNext s value => Some (Subscriber_next s value w)
  | CallError s err => Some (Subscriber_error s err w)
  | CallComplete s => Subscriber_complete fuel s w
  | CallUnsubscribe s => Subscription_unsubscribe fuel s w
  | CallAdd s teardown => Some (Subscription_add s teardown w)
  | Wait t => run_until fuel t w
  end.

Definition calls (fuel : nat) (cs : list Call) (w : World) : option World :=
  forEach (call fuel) cs w.

(** The wrapped observer's handler is called iff it is defined. *)
Definition forwarded (defined : bool) (e : Event) : list Event :=
  if defined then [e] else [].

(** What the specification says of [unsubscribe()]: every stored action is
    invoked once, in registration order; a stored subscription contributes
    what its own [unsubscribe()] invokes.  [objs] is the heap at the call. *)
Fixpoint events_of (g : Teardown → option (list Event)) (tds : list Teardown)
    : option (list Event) :=
  match tds with
  | [] => Some []
  | td :: rest => evs ← g td; evs' ← events_of g rest; Some (evs ++ evs')
  end.

Fixpoint registry_events (fuel : nat) (objs : gmap loc Object) (this : loc)
    : option (list Event) :=
  match fuel with
  | 0 => None
  | S fuel' =>
      events_of (fun td =>
                   match td with
                   | TdFunction f => Some [Called f]
                   | TdUnsubscribable u => Some [Unsubscribed u]
                   | TdSubscription s => registry_events fuel' objs s
                   end)
                (_teardowns (default new_object (objs !! this)))
  end.

(** The world after user code was invoked for [evs], at the current time. *)
Definition emit (evs : list Event) (w : World) : World :=
  mkWorld (objects w) (next_object w) (variables w) (next_variable w)
          (timers w) (next_handle w) (now w)
          (trace w ++ ((fun e => (now w, e)) <$> evs)).

(** A cleanup action supplied by the user, and the record of its call. *)
Definition user_action (td : Teardown) : bool :=
  match td with TdSubscription _ => false | _ => true end.

Definition action_events (td : Teardown) : list Event :=
  match td with
  | TdFunction f => [Called f]
  | TdUnsubscribable u => [Unsubscribed u]
  | TdSubscription _ => []
  end.

(** What the specification says an observer of [map(project)(upstream)]
    sees when the upstream producer delivers [script]: before the first
    terminal notification every value [v] arrives as [project(v, k)], [k]
    counting the values from the given index; [error] and [complete] pass
    unchanged; values after a terminal notification are dropped. *)
Fixpoint map_events (project : V → nat → V) (o : string) (hn he hc : bool)
    (k : nat) (stopped : bool) (script : list Notification) : list Event :=
  match script with
  | [] => []
  | N v :: rest =>
      if stopped then map_events project o hn he hc k true rest
      else forwarded hn (ObsNext o (project v k))
             ++ map_events project o hn he hc (S k) false rest
  | E err :: rest =>
      forwarded he (ObsError o err) ++ map_events project o hn he hc k true rest
  | C :: rest =>
      forwarded hc (ObsComplete o) ++ map_events project o hn he hc k true rest
  end.

(** The state of one activation of [map]'s producer while the upstream
    producer runs: the counter [i] holds [k], the upstream endpoint [u] and
    the downstream endpoint [d] are both stopped or both running, nothing is
    registered on either yet. *)
Definition map_running (i u d : loc) (k : nat) (stopped : bool) (t : nat)
    (tr : list (nat * Event)) (w : World) : Prop :=
  u ≠ d ∧ read i w = k ∧
  isStopped (object_at w u) = stopped ∧ isStopped (object_at w d) = stopped ∧
  _teardowns (object_at w u) = [] ∧ _teardowns (object_at w d) = [] ∧
  now w = t ∧ trace w = tr.

(** Values handed to an endpoint at given times: wait until [t], then
    call [next(v)]. *)
Definition feed (s : Subscriber) (arrivals : list (nat * V)) : list Call :=
  flat_map (fun '(t, v) => [Wait t; CallNext s v]) arrivals.

(** A burst: every arrival comes less than [delay] after the one before,
    the first of them after [prev]. *)
Fixpoint burst (delay prev : nat) (arrivals : list (nat * V)) : Prop :=
  match arrivals with
  | [] => True
  | (t, _) :: rest => prev ≤ t ∧ t < prev + delay ∧ burst delay t rest
  end.

(** Exactly one timer is pending, and the variable [time] holds its handle. *)
Definition pending (time : loc) (h t : nat) (cb : Callback) (w : World) : Prop :=
  timers w = [mkTimer h t cb] ∧ read time w = h ∧ 0 < h ∧ h < next_handle w.

(** [w'] has every stopped flag set that [w] has. *)
Definition flags_kept (w w' : World) : Prop :=
  ∀ l, isStopped (object_at w l) = true → isStopped (object_at w' l) = true.

(** The values a user observer received through [next], oldest first. *)
Definition received (o : string) (w : World) : list (nat * V) :=
  omap (fun te => match te with
                  | (t, ObsNext o' v) => if decide (o' = o) then Some (t, v) else None
                  | _ => None
                  end) (trace w).

End Model.

Arguments Observer : clear implicits.
Arguments Subscriber : clear implicits.
Arguments Event : clear implicits.
Arguments Callback : clear implicits.
Arguments Timer : clear implicits.
Arguments World : clear implicits.
Arguments Producer : clear implicits.
Arguments Observable : clear implicits.
Arguments Notification : clear implicits.
Arguments Call : clear implicits.

Scheme Observer_mut := Induction for Observer Sort Prop
  with Subscriber_mut := Induction for Subscriber Sort Prop.

(** The terminal calls on an endpoint. *)
Inductive terminal_on {V : Type} (s : Subscriber V) : Call V → Prop :=
| terminal_error (err : V) : terminal_on s (CallError s err)
| terminal_complete : terminal_on s (CallComplete s).



(** ** Further notions used in the properties *)

Section Notions.
Context {V : Type}.

(** What an observer sees of a producer that delivers [script] to its own
    endpoint: values until the first terminal notification, and every
    [error] and [complete]. *)
Fixpoint delivered (o : string) (hn he hc : bool) (stopped : bool)
    (script : list (Notification V)) : list (Event V) :=
  match script with
  | [] => []
  | N v :: rest =>
      if stopped then delivered o hn he hc true rest
      else forwarded hn (ObsNext o v) ++ delivered o hn he hc false rest
  | E err :: rest =>
      forwarded he (ObsError o err) ++ delivered o hn he hc true rest
  | C :: rest =>
      forwarded hc (ObsComplete o) ++ delivered o hn he hc true rest
  end.

(** Whether the script contains a terminal notification. *)
Definition terminates (script : list (Notification V)) : bool :=
  existsb (fun n => match n with N _ => false | _ => true end) script.

(** One endpoint while its producer runs: flag [stopped], nothing
    registered yet. *)
Definition endpoint_running (l : loc) (stopped : bool) (t : nat)
    (tr : list (nat * Event V)) (w : World V) : Prop :=
  isStopped (object_at w l) = stopped ∧ _teardowns (object_at w l) = [] ∧
  now w = t ∧ trace w = tr.

(** Arrivals at least [delay] apart, the first of them at least [delay]
    after [prev]. *)
Fixpoint spaced (delay prev : nat) (arrivals : list (nat * V)) : Prop :=
  match arrivals with
  | [] => True
  | (t, _) :: rest => prev + delay ≤ t ∧ spaced delay t rest
  end.

(** The emissions of a debounced stream for arrivals that are [spaced]. *)
Definition each_delayed (o : string) (delay : nat) (arrivals : list (nat * V))
    : list (nat * Event V) :=
  (fun '(t, v) => (t + delay, ObsNext o v)) <$> arrivals.

(** The state of [pipe(map(f), map(g))] while the source's producer runs:
    both counters hold [k]; the three endpoints (the source's [u], the
    middle one [m], the subscriber's [d]) are all stopped or all running;
    nothing is registered yet. *)
Definition maps_running (i1 i2 u m d : loc) (k : nat) (stopped : bool)
    (t : nat) (tr : list (nat * Event V)) (w : World V) : Prop :=
  i1 ≠ i2 ∧ u ≠ m ∧ u ≠ d ∧ m ≠ d ∧
  read i1 w = k ∧ read i2 w = k ∧
  isStopped (object_at w u) = stopped ∧
  isStopped (object_at w m) = stopped ∧
  isStopped (object_at w d) = stopped ∧
  _teardowns (object_at w u) = [] ∧
  _teardowns (object_at w m) = [] ∧
  _teardowns (object_at w d) = [] ∧
  now w = t ∧ trace w = tr.

(** Values handed in turn to two endpoints; [true] marks the first. *)
Definition hand_over (a b : Subscriber V) (turns : list (bool * V))
    : list (Call V) :=
  (fun turn : bool * V => CallNext (if turn.1 then a else b) turn.2) <$> turns.

(** What the two observers of two activations of [map(project)] see of
    such turns when each activation counts for itself: [kA] and [kB] are
    the indices the next value of either gets. *)
Fixpoint counted_apart (project : V → nat → V) (oA oB : string)
    (hnA hnB : bool) (kA kB : nat) (turns : list (bool * V))
    : list (Event V) :=
  match turns with
  | [] => []
  | (true, v) :: rest =>
      forwarded hnA (ObsNext oA (project v kA))
        ++ counted_apart project oA oB hnA hnB (S kA) kB rest
  | (false, v) :: rest =>
      forwarded hnB (ObsNext oB (project v kB))
        ++ counted_apart project oA oB hnA hnB kA (S kB) rest
  end.

(** Two live activations of [map]: counters [iA] and [iB] in different
    cells, holding [kA] and [kB]; all four endpoints running. *)
Definition both_running (iA iB uA uB dA dB : loc) (kA kB : nat) (t : nat)
    (tr : list (nat * Event V)) (w : World V) : Prop :=
  iA ≠ iB ∧ read iA w = kA ∧ read iB w = kB ∧
  isStopped (object_at w uA) = false ∧ isStopped (object_at w dA) = false ∧
  isStopped (object_at w uB) = false ∧ isStopped (object_at w dB) = false ∧
  now w = t ∧ trace w = tr.

(** Arrivals more than [delay] apart, the first of them more than [delay]
    after [prev]. *)
Fixpoint apart (delay prev : nat) (arrivals : list (nat * V)) : Prop :=
  match arrivals with
  | [] => True
  | (t, _) :: rest => prev + delay < t ∧ apart delay t rest
  end.

End Notions.

(** ** Concrete endpoints and worlds for the examples *)

(** An observer over numbers that defines all three handlers. *)
Definition full (o : string) : Observer Z := UserObserver o true true true.

(** [new Subscriber(observer, "user")] in the initial world. *)
Definition endpoint0 : Subscriber Z := mkSubscriber 0 (full "o") "user".
Definition world0 : World Z := (alloc_object empty_world).2.

(** A source that emits nothing by itself. *)
Definition silent : Observable Z := new_Observable (synchronous [] None).

(** One call [debounceTime(100)], and its operator. *)
Definition debounce100 : Observable Z → Observable Z :=
  (debounceTime 100 empty_world).1.
Definition debounce100_world : World Z := (debounceTime 100 empty_world).2.

(** [silent.pipe(debounceTime(100)).subscribe(o)]: the world afterwards, the
    endpoint over ["o"] and the endpoint the operator handed upstream. *)
Definition debounced_world : World Z :=
  default empty_world
    (snd <$> Observable_subscribe (Observable_pipe silent [debounce100])
               (full "o") 1 debounce100_world).
Definition debounced_down : Subscriber Z :=
  mkSubscriber 0 (full "o") "debounceTime".
Definition debounced_up : Subscriber Z :=
  mkSubscriber 1 (DebounceObserver 0 100 debounced_down) "user".

(** Two subscriptions, ["A"] then ["B"], through the one operator. *)
Definition shared_world : World Z :=
  default empty_world
    (snd <$> Observable_subscribe (Observable_pipe silent [debounce100])
               (full "B") 1
               (default empty_world
                  (snd <$> Observable_subscribe
                             (Observable_pipe silent [debounce100])
                             (full "A") 1 debounce100_world))).
Definition shared_up_A : Subscriber Z :=
  mkSubscriber 1 (DebounceObserver 0 100
                    (mkSubscriber 0 (full "A") "debounceTime")) "user".
Definition shared_up_B : Subscriber Z :=
  mkSubscriber 3 (DebounceObserver 0 100
                    (mkSubscriber 2 (full "B") "debounceTime")) "user".

(** The demonstration script: a source that emits 1 after 3000 ms and
    returns an unsubscribable that logs, piped through [map(i => ++i)], and
    an observer that defines [next] and [complete] only. *)
Definition demo_source : Observable Z :=
  new_Observable (timed [(3000, 1%Z)] (Some (TdUnsubscribable "done"))).
Definition demo_observer : Observer Z := UserObserver "console" true false true.
Definition demo_stream : Observable Z :=
  Observable_pipe demo_source [map (fun i _ => (i + 1)%Z)].

(** * Properties *)

(** ** pipeFromArray and Observable.pipe *)

Lemma fold_left_nested {T : Type} (fns : list (T → T)) (input : T) :
  fold_left (fun prev fn => fn prev) fns input
  = nested_application (rev fns) input.
Proof.
  revert input. induction fns as [|fn fns IH] using rev_ind; intros input.
  - reflexivity.
  - rewrite fold_left_app, rev_unit. simpl. now rewrite IH.
Qed.

(** C5: [pipeFromArray] of no function is the identity, of one function is
    that function itself, and in every case applies the functions left to
    right, [fns[n-1](...fns[1](fns[0](input)))]; so [pipe()] returns the
    stream itself and [pipe(op)] returns [op(this)]. *)
Theorem C5_pipeFromArray :
  (∀ T : Type, pipeFromArray (@nil (T → T)) = (fun input => input)) ∧
  (∀ (T : Type) (fn : T → T), pipeFromArray [fn] = fn) ∧
  (∀ (T : Type) (fns : list (T → T)) (input : T),
      pipeFromArray fns input = nested_application (rev fns) input) ∧
  (∀ (V : Type) (this : Observable V), Observable_pipe this [] = this) ∧
  (∀ (V : Type) (this : Observable V) (op : Observable V → Observable V),
      Observable_pipe this [op] = op this).
Proof.
  repeat split; try reflexivity.
  intros T fns input. destruct fns as [|f [|g fns]]; try reflexivity.
  unfold pipeFromArray. apply fold_left_nested.
Qed.

(** ** Subscription: the teardown registry *)

Section Registry.
Context {V : Type}.
Implicit Types (w : World V) (l this : loc) (evs : list (Event V)).

Lemma world_eta w :
  mkWorld (objects w) (next_object w) (variables w) (next_variable w)
          (timers w) (next_handle w) (now w) (trace w) = w.
Proof. now destruct w. Qed.

Lemma emit_nil w : emit [] w = w.
Proof. unfold emit. simpl. rewrite app_nil_r. apply world_eta. Qed.

Lemma emit_app evs evs' w : emit (evs ++ evs') w = emit evs' (emit evs w).
Proof. unfold emit. simpl. now rewrite fmap_app, app_assoc. Qed.

Lemma log_emit (e : Event V) w : log e w = emit [e] w.
Proof. reflexivity. Qed.

Lemma unsubscribe_events fuel this w :
  Subscription_unsubscribe fuel this w
  = (fun evs => emit evs w) <$> registry_events fuel (objects w) this.
Proof.
  revert this w. induction fuel as [|fuel IH]; intros this w; [reflexivity|].
  simpl. unfold object_at.
  generalize (_teardowns (default new_object (objects w !! this))).
  intros tds.
  assert (G : ∀ w0, objects w0 = objects w →
    forEach (fun teardown w1 =>
               match teardown with
               | TdFunction f => Some (log (Called f) w1)
               | TdUnsubscribable u => Some (log (Unsubscribed u) w1)
               | TdSubscription s => Subscription_unsubscribe fuel s w1
               end) tds w0
    = (fun evs => emit evs w0) <$>
      events_of (fun td =>
                   match td with
                   | TdFunction f => Some [Called f]
                   | TdUnsubscribable u => Some [Unsubscribed u]
                   | TdSubscription s => registry_events fuel (objects w) s
                   end) tds); [|now apply G].
  induction tds as [|td tds IHtds]; intros w0 Hobj; simpl.
  - now rewrite emit_nil.
  - destruct td as [f|u|s]; simpl.
    + rewrite IHtds by exact Hobj.
      destruct (events_of _ tds) as [evs|]; [|reflexivity].
      cbn [fmap option_fmap option_map mbind option_bind].
      now rewrite log_emit, <- emit_app.
    + rewrite IHtds by exact Hobj.
      destruct (events_of _ tds) as [evs|]; [|reflexivity].
      cbn [fmap option_fmap option_map mbind option_bind].
      now rewrite log_emit, <- emit_app.
    + rewrite IH, Hobj.
      destruct (registry_events fuel (objects w) s) as [evs|]; simpl;
        [|reflexivity].
      rewrite IHtds by exact Hobj.
      destruct (events_of _ tds) as [evs'|]; [|reflexivity].
      cbn [fmap option_fmap option_map mbind option_bind].
      now rewrite <- emit_app.
Qed.

Lemma events_of_user_actions (g : Teardown → option (list (Event V)))
    (tds : list Teardown) :
  (∀ td, user_action td = true → g td = Some (action_events td)) →
  forallb user_action tds = true →
  events_of g tds = Some (concat (action_events <$> tds)).
Proof.
  intros Hg. induction tds as [|td tds IH]; simpl; [reflexivity|].
  intros [Htd Htds]%andb_prop. rewrite (Hg _ Htd), (IH Htds). reflexivity.
Qed.

Lemma registry_events_user_actions fuel (objs : gmap loc Object) this :
  forallb user_action (_teardowns (default new_object (objs !! this))) = true →
  registry_events (V := V) (S fuel) objs this
  = Some (concat (action_events <$>
                    _teardowns (default new_object (objs !! this)))).
Proof.
  intros H. simpl. apply events_of_user_actions; [|exact H].
  now intros [f|u|s].
Qed.

Lemma object_at_set_object l l' (o : Object) w :
  object_at (set_object l o w) l' = if decide (l = l') then o else object_at w l'.
Proof.
  unfold object_at, set_object. simpl. rewrite lookup_insert.
  now destruct (decide (l = l')).
Qed.

Lemma teardowns_add_same this (td : Teardown) w :
  _teardowns (object_at (Subscription_add this (Some td) w) this)
  = _teardowns (object_at w this) ++ [td].
Proof.
  simpl. rewrite object_at_set_object. now rewrite decide_True.
Qed.

Lemma teardowns_adds this (acts : list TeardownLogic) w :
  _teardowns (object_at
                (fold_left (fun w a => Subscription_add this a w) acts w) this)
  = _teardowns (object_at w this) ++ omap id acts.
Proof.
  revert w. induction acts as [|a acts IH]; intros w; simpl.
  - now rewrite app_nil_r.
  - rewrite IH. destruct a as [td|]; simpl.
    + rewrite object_at_set_object, decide_True by reflexivity. simpl.
      now rewrite <- app_assoc.
    + reflexivity.
Qed.

End Registry.

(** C4: [add] stores exactly the non-empty actions, keeping order and
    duplicates; one [unsubscribe()] invokes every stored action once, in
    registration order, a procedure by a plain call and any other action
    through its [unsubscribe()]. *)
Theorem C4_registry (V : Type) (this : loc) (acts : list TeardownLogic)
    (fuel : nat) (w : World V) :
  let stored := fun w : World V => _teardowns (object_at w this) in
  let w' := fold_left (fun w a => Subscription_add this a w) acts w in
  Subscription_add this None w = w ∧
  (∀ td, stored (Subscription_add this (Some td) w) = stored w ++ [td]) ∧
  stored w' = stored w ++ omap id acts ∧
  Subscription_unsubscribe fuel this w'
  = (fun evs => emit evs w') <$> registry_events fuel (objects w') this ∧
  (forallb user_action (stored w') = true →
   Subscription_unsubscribe (S fuel) this w'
   = Some (emit (concat (action_events <$> stored w')) w')).
Proof.
  intros stored w'. split; [reflexivity|].
  split; [intros td; apply teardowns_add_same|].
  split; [apply teardowns_adds|].
  split; [apply unsubscribe_events|].
  intros Hleaf. rewrite unsubscribe_events.
  unfold stored, object_at in *.
  now rewrite (registry_events_user_actions _ _ _ Hleaf).
Qed.

(** A registry with mixed entries: a procedure, nothing, an unsubscribable,
    and the same procedure a second time. *)
Lemma C4_registry_witness :
  let acts := [Some (TdFunction "f"); None; Some (TdUnsubscribable "u");
               Some (TdFunction "f")] in
  let w' := fold_left (fun w a => Subscription_add 0 a w) acts
                      (alloc_object (@empty_world Z)).2 in
  forallb user_action (_teardowns (object_at w' 0)) = true ∧
  trace <$> Subscription_unsubscribe 1 0 w'
  = Some [(0, Called "f"); (0, Unsubscribed "u"); (0, Called "f")].
Proof.
  split; [reflexivity|].
  rewrite (proj2 (proj2 (proj2 (proj2
    (C4_registry Z 0
       [Some (TdFunction "f"); None; Some (TdUnsubscribable "u");
        Some (TdFunction "f")] 0 (alloc_object empty_world).2))))
    eq_refl).
  reflexivity.
Defined.

(** ** Subscriber: the stopped flag *)

Section Stopped.
Context {V : Type}.
Implicit Types (w : World V) (l : loc) (s : Subscriber V) (o : Observer V).

(** No handler of [next] touches a Subscription object. *)
Lemma observer_next_objects o (value : V) w :
  objects (Observer_next o value w) = objects w.
Proof.
  revert value w.
  induction o as [name hn he hc|project i d IH|time delay d IH|l o IH]
    using Observer_mut
    with (P0 := fun s => ∀ value w, objects (Subscriber_next s value w) = objects w);
    intros value w; simpl.
  - reflexivity.
  - now rewrite IH.
  - now destruct (decide (read time w = 0)).
  - destruct (has_next o && negb (isStopped (object_at w l)));
      [apply IH|reflexivity].
Qed.

Lemma next_objects s (value : V) w :
  objects (Subscriber_next s value w) = objects w.
Proof.
  destruct s as [l o ty]. simpl.
  destruct (has_next o && negb (isStopped (object_at w l)));
    [apply observer_next_objects|reflexivity].
Qed.

Lemma flags_kept_refl w : flags_kept w w.
Proof. now intros l. Qed.

Lemma flags_kept_trans w1 w2 w3 :
  flags_kept w1 w2 → flags_kept w2 w3 → flags_kept w1 w3.
Proof. intros H12 H23 l H. now apply H23, H12. Qed.

Lemma flags_kept_objects w w' : objects w' = objects w → flags_kept w w'.
Proof. intros H l. unfold object_at. now rewrite H. Qed.

Lemma set_isStopped_flag l w : isStopped (object_at (set_isStopped l w) l) = true.
Proof.
  unfold set_isStopped. now rewrite object_at_set_object, decide_True.
Qed.

Lemma set_isStopped_kept l w : flags_kept w (set_isStopped l w).
Proof.
  intros l' H. unfold set_isStopped. rewrite object_at_set_object.
  now destruct (decide (l = l')).
Qed.

Lemma set_isStopped_teardowns l l' w :
  _teardowns (object_at (set_isStopped l w) l') = _teardowns (object_at w l').
Proof.
  unfold set_isStopped. rewrite object_at_set_object.
  destruct (decide (l = l')) as [->|]; reflexivity.
Qed.

(** Setting a flag that is already set changes nothing. *)
Lemma set_isStopped_again l w :
  isStopped (object_at w l) = true → set_isStopped l w = w.
Proof.
  intros H. unfold set_isStopped, set_object, object_at in *.
  destruct (objects w !! l) as [[tds b]|] eqn:E; simpl in *; [|discriminate].
  subst b. rewrite insert_id by exact E. apply world_eta.
Qed.

Lemma observer_error_kept o (err : V) w : flags_kept w (Observer_error o err w).
Proof.
  revert err w.
  induction o as [name hn he hc|project i d IH|time delay d IH|l o IH]
    using Observer_mut
    with (P0 := fun s => ∀ err w, flags_kept w (Subscriber_error s err w));
    intros err w; simpl.
  - now apply flags_kept_objects.
  - apply IH.
  - eapply flags_kept_trans; [|apply IH]. now apply flags_kept_objects.
  - eapply flags_kept_trans; [apply (set_isStopped_kept l)|].
    destruct (has_error o); [apply IH|apply flags_kept_refl].
Qed.

Lemma error_kept s (err : V) w : flags_kept w (Subscriber_error s err w).
Proof.
  destruct s as [l o ty]. simpl.
  eapply flags_kept_trans; [apply (set_isStopped_kept l)|].
  destruct (has_error o); [apply observer_error_kept|apply flags_kept_refl].
Qed.

Lemma error_flag s (err : V) w :
  isStopped (object_at (Subscriber_error s err w) (Subscriber_loc s)) = true.
Proof.
  destruct s as [l o ty]. simpl.
  destruct (has_error o); [|apply set_isStopped_flag].
  apply observer_error_kept, set_isStopped_flag.
Qed.

Lemma unsubscribe_objects fuel l w w' :
  Subscription_unsubscribe fuel l w = Some w' → objects w' = objects w.
Proof.
  rewrite unsubscribe_events.
  destruct (registry_events fuel (objects w) l); simpl; [|discriminate].
  now intros [= <-].
Qed.

Lemma observer_complete_kept fuel o w w' :
  Observer_complete fuel o w = Some w' → flags_kept w w'.
Proof.
  revert w w'.
  induction o as [name hn he hc|project i d IH|time delay d IH|l o IH]
    using Observer_mut
    with (P0 := fun s => ∀ w w',
                  Subscriber_complete fuel s w = Some w' → flags_kept w w');
    intros w w'; simpl.
  - intros [= <-]. now apply flags_kept_objects.
  - apply IH.
  - intros H. eapply flags_kept_trans; [|apply (IH _ _ H)].
    now apply flags_kept_objects.
  - intros H.
    destruct (if has_complete o then Observer_complete fuel o (set_isStopped l w)
              else Some (set_isStopped l w)) as [w2|] eqn:E2;
      simpl in H; [|discriminate].
    eapply flags_kept_trans; [apply (set_isStopped_kept l)|].
    eapply flags_kept_trans;
      [|apply flags_kept_objects, (unsubscribe_objects _ _ _ _ H)].
    revert E2. destruct (has_complete o); intros E2; [now apply IH|].
    injection E2 as <-. apply flags_kept_refl.
Qed.

Lemma complete_kept fuel s w w' :
  Subscriber_complete fuel s w = Some w' →
  flags_kept w w' ∧ isStopped (object_at w' (Subscriber_loc s)) = true.
Proof.
  destruct s as [l o ty]. simpl. intros H.
  destruct (if has_complete o then Observer_complete fuel o (set_isStopped l w)
            else Some (set_isStopped l w)) as [w2|] eqn:E2;
    simpl in H; [|discriminate].
  assert (K : flags_kept (set_isStopped l w) w').
  { eapply flags_kept_trans;
      [|apply flags_kept_objects, (unsubscribe_objects _ _ _ _ H)].
    revert E2. destruct (has_complete o); intros E2;
      [now apply (observer_complete_kept fuel o)|].
    injection E2 as <-. apply flags_kept_refl. }
  split.
  - eapply flags_kept_trans; [apply (set_isStopped_kept l)|exact K].
  - apply K, set_isStopped_flag.
Qed.

Lemma add_kept l (teardown : TeardownLogic) w :
  flags_kept w (Subscription_add l teardown w).
Proof.
  destruct teardown as [td|]; [|apply flags_kept_refl].
  intros l' H. simpl. rewrite object_at_set_object.
  destruct (decide (l = l')) as [->|]; [exact H|exact H].
Qed.

Lemma fire_objects (tm : Timer V) w : objects (fire tm w) = objects w.
Proof.
  unfold fire. destruct (callback tm) as [d value]. now rewrite next_objects.
Qed.

Lemma run_until_objects fuel t w w' :
  run_until fuel t w = Some w' → objects w' = objects w.
Proof.
  revert w. induction fuel as [|fuel IH]; intros w; simpl.
  - destruct (next_timer t w); [discriminate|]. now intros [= <-].
  - destruct (next_timer t w) as [tm|].
    + intros H. rewrite (IH _ H). apply fire_objects.
    + now intros [= <-].
Qed.

Lemma call_kept fuel (c : Call V) w w' :
  call fuel c w = Some w' → flags_kept w w'.
Proof.
  destruct c as [s v|s e|s|l|l td|t]; simpl.
  - intros [= <-]. apply flags_kept_objects, next_objects.
  - intros [= <-]. apply error_kept.
  - intros H. now apply complete_kept in H.
  - intros H. now apply flags_kept_objects, (unsubscribe_objects fuel l).
  - intros [= <-]. apply add_kept.
  - intros H. now apply flags_kept_objects, (run_until_objects fuel t).
Qed.

Lemma calls_kept fuel (cs : list (Call V)) w w' :
  calls fuel cs w = Some w' → flags_kept w w'.
Proof.
  unfold calls. revert w. induction cs as [|c cs IH]; intros w; simpl.
  - intros [= <-]. apply flags_kept_refl.
  - destruct (call fuel c w) as [w1|] eqn:E; simpl; [|discriminate].
    intros H. eapply flags_kept_trans; [apply (call_kept _ _ _ _ E)|now apply IH].
Qed.

(** After a terminal call on [s], and whatever is called afterwards, the
    flag of [s] is set. *)
Lemma stopped_for_good fuel s (first : Call V) (later : list (Call V)) w w1 w2 :
  terminal_on s first →
  call fuel first w = Some w1 →
  calls fuel later w1 = Some w2 →
  isStopped (object_at w2 (Subscriber_loc s)) = true.
Proof.
  intros Hfirst H1 H2. apply (calls_kept _ _ _ _ H2).
  destruct Hfirst as [err|]; simpl in H1.
  - injection H1 as <-. apply error_flag.
  - now apply complete_kept in H1.
Qed.

Lemma next_when_stopped s (value : V) w :
  isStopped (object_at w (Subscriber_loc s)) = true →
  Subscriber_next s value w = w.
Proof.
  destruct s as [l o ty]. simpl. intros ->. now rewrite andb_false_r.
Qed.

End Stopped.

(** C2: once [error()] or [complete()] has run on an endpoint, whatever is
    called afterwards, [next(v)] on that endpoint changes nothing: no
    handler is invoked and the value is dropped. *)
Theorem C2_next_dropped_once_stopped (V : Type) (s : Subscriber V)
    (first : Call V) (later : list (Call V)) (fuel : nat) (w w1 w2 : World V)
    (value : V) :
  terminal_on s first →
  call fuel first w = Some w1 →
  calls fuel later w1 = Some w2 →
  Subscriber_next s value w2 = w2.
Proof.
  intros Hfirst H1 H2. apply next_when_stopped.
  exact (stopped_for_good fuel s first later w w1 w2 Hfirst H1 H2).
Qed.

Lemma C2_next_dropped_witness :
  let first := CallComplete endpoint0 in
  let later := [CallUnsubscribe 0; CallAdd 0 (Some (TdFunction "f"));
                CallError endpoint0 7%Z; Wait 10] in
  let w1 := default world0 (call 1 first world0) in
  let w2 := default world0 (calls 1 later w1) in
  trace w2 = [(0, ObsComplete "o"); (0, ObsError "o" 7%Z)] ∧
  Subscriber_next endpoint0 5%Z w2 = w2.
Proof.
  split; [reflexivity|].
  apply (C2_next_dropped_once_stopped Z endpoint0 (CallComplete endpoint0)
           [CallUnsubscribe 0; CallAdd 0 (Some (TdFunction "f"));
            CallError endpoint0 7%Z; Wait 10]
           1 world0
           (default world0 (call 1 (CallComplete endpoint0) world0))).
  - constructor.
  - reflexivity.
  - reflexivity.
Defined.

(** C1 as stated fails: [error()] and [complete()] carry no guard, so a
    second [error()] on a stopped endpoint reaches the observer again, and
    so does a [complete()] after an [error()]. *)
Lemma C1_terminal_events_repeat_counterexample :
  let w1 := Subscriber_error endpoint0 1%Z world0 in
  isStopped (object_at w1 0) = true ∧
  trace w1 = [(0, ObsError "o" 1%Z)] ∧
  trace (Subscriber_error endpoint0 2%Z w1)
  = [(0, ObsError "o" 1%Z); (0, ObsError "o" 2%Z)] ∧
  trace (Subscriber_error endpoint0 2%Z w1) ≠ trace w1 ∧
  trace <$> Subscriber_complete 1 endpoint0 w1
  = Some [(0, ObsError "o" 1%Z); (0, ObsComplete "o")].
Proof.
  repeat split; try reflexivity. discriminate.
Qed.

(** C1, amended: after [error()] or [complete()] the endpoint is stopped
    for good, whatever is called afterwards; yet every later [error(payload)]
    and [complete()] is forwarded again to the wrapped observer, iff it
    defines the handler, and [complete()] runs [unsubscribe()] again. *)
Theorem C1_stopped_for_good_terminals_repeat (V : Type) (l : loc) (o : string)
    (hn he hc : bool) (ty : string) (first : Call V) (later : list (Call V))
    (fuel : nat) (w w1 w2 : World V) (err : V) :
  let s := mkSubscriber l (UserObserver o hn he hc) ty in
  terminal_on s first →
  call fuel first w = Some w1 →
  calls fuel later w1 = Some w2 →
  isStopped (object_at w2 l) = true ∧
  Subscriber_error s err w2 = emit (forwarded he (ObsError o err)) w2 ∧
  Subscriber_complete fuel s w2
  = Subscription_unsubscribe fuel l (emit (forwarded hc (ObsComplete o)) w2).
Proof.
  intros s Hfirst H1 H2.
  pose proof (stopped_for_good fuel s first later w w1 w2 Hfirst H1 H2) as Hs.
  simpl in Hs. split; [exact Hs|]. simpl.
  rewrite (set_isStopped_again l w2 Hs). split.
  - destruct he; simpl; [reflexivity|now rewrite emit_nil].
  - destruct hc; simpl; [reflexivity|now rewrite emit_nil].
Qed.

Lemma C1_stopped_for_good_witness :
  let w1 := Subscriber_error endpoint0 1%Z world0 in
  let w2 := default world0 (calls 1 [CallNext endpoint0 3%Z; Wait 5] w1) in
  isStopped (object_at w2 0) = true ∧
  Subscriber_error endpoint0 2%Z w2
  = emit (forwarded true (ObsError "o" 2%Z)) w2 ∧
  Subscriber_complete 1 endpoint0 w2
  = Subscription_unsubscribe 1 0 (emit (forwarded true (ObsComplete "o")) w2).
Proof.
  apply (C1_stopped_for_good_terminals_repeat Z 0 "o" true true true "user"
           (CallError endpoint0 1%Z) [CallNext endpoint0 3%Z; Wait 5] 1
           world0 (Subscriber_error endpoint0 1%Z world0)).
  - constructor.
  - reflexivity.
  - reflexivity.
Defined.

(** ** Subscriber: [complete] against [error] *)

Section Terminal.
Context {V : Type}.
Implicit Types (w : World V) (l : loc).

Lemma events_of_ext (g g' : Teardown → option (list (Event V))) tds :
  (∀ td, g td = g' td) → events_of g tds = events_of g' tds.
Proof.
  intros H. induction tds as [|td tds IH]; simpl; [reflexivity|].
  now rewrite H, IH.
Qed.

(** What [unsubscribe()] invokes depends on the registries only. *)
Lemma registry_events_ext fuel (objs objs' : gmap loc Object) l :
  (∀ l', _teardowns (default new_object (objs !! l'))
         = _teardowns (default new_object (objs' !! l'))) →
  registry_events (V := V) fuel objs l = registry_events fuel objs' l.
Proof.
  intros H. revert l. induction fuel as [|fuel IH]; intros l; simpl;
    [reflexivity|].
  rewrite H. apply events_of_ext. intros [f|u|s]; auto.
Qed.

Lemma registry_events_set_isStopped fuel l l' w :
  registry_events (V := V) fuel (objects (set_isStopped l w)) l'
  = registry_events fuel (objects w) l'.
Proof.
  apply registry_events_ext. intros l''.
  apply (set_isStopped_teardowns l l'' w).
Qed.

Lemma complete_user_observer fuel l (o : string) (hn he hc : bool)
    (ty : string) w :
  Subscriber_complete fuel (mkSubscriber l (UserObserver o hn he hc) ty) w
  = (fun evs => emit (forwarded hc (ObsComplete o) ++ evs) (set_isStopped l w))
      <$> registry_events fuel (objects w) l.
Proof.
  cbn [Subscriber_complete Observer_complete has_complete].
  destruct hc; cbn [mbind option_bind forwarded]; rewrite unsubscribe_events.
  - change (objects (log (ObsComplete o) (set_isStopped l w)))
      with (objects (set_isStopped l w)).
    rewrite (registry_events_set_isStopped fuel l l w).
    destruct (registry_events fuel (objects w) l) as [evs|];
      [|reflexivity].
    cbn [fmap option_fmap option_map].
    now rewrite log_emit, <- emit_app.
  - rewrite (registry_events_set_isStopped fuel l l w).
    reflexivity.
Qed.

Lemma error_user_observer l (o : string) (hn he hc : bool) (ty : string)
    (err : V) w :
  Subscriber_error (mkSubscriber l (UserObserver o hn he hc) ty) err w
  = emit (forwarded he (ObsError o err)) (set_isStopped l w).
Proof.
  simpl. destruct he; simpl; [reflexivity|now rewrite emit_nil].
Qed.

End Terminal.

(** C3: [complete()] sets the flag, calls the observer's [complete] iff it
    is defined, and then runs [unsubscribe()], which invokes all registered
    teardowns; [error(err)] sets the flag and calls the observer's [error]
    iff it is defined, and invokes no teardown. *)
Theorem C3_complete_unsubscribes_error_does_not (V : Type) (l : loc)
    (o : string) (hn he hc : bool) (ty : string) (fuel : nat) (w : World V)
    (err : V) :
  let this := mkSubscriber l (UserObserver o hn he hc) ty in
  let stored := _teardowns (object_at w l) in
  (* complete *)
  Subscriber_complete fuel this w
  = Subscription_unsubscribe fuel l
      (emit (forwarded hc (ObsComplete o)) (set_isStopped l w)) ∧
  Subscriber_complete fuel this w
  = (fun evs => emit (forwarded hc (ObsComplete o) ++ evs) (set_isStopped l w))
      <$> registry_events fuel (objects w) l ∧
  (forallb user_action stored = true →
   Subscriber_complete (S fuel) this w
   = Some (emit (forwarded hc (ObsComplete o)
                 ++ concat (action_events <$> stored))
                (set_isStopped l w))) ∧
  (* error *)
  Subscriber_error this err w
  = emit (forwarded he (ObsError o err)) (set_isStopped l w) ∧
  trace (Subscriber_error this err w)
  = trace w ++ ((fun e => (now w, e)) <$> forwarded he (ObsError o err)) ∧
  _teardowns (object_at (Subscriber_error this err w) l) = stored ∧
  (* both *)
  isStopped (object_at (set_isStopped l w) l) = true.
Proof.
  intros this stored. split; [|split; [|split; [|split; [|split; [|split]]]]].
  - simpl. destruct hc; simpl; [reflexivity|now rewrite emit_nil].
  - apply complete_user_observer.
  - intros Hleaf. unfold this. rewrite complete_user_observer.
    unfold stored, object_at in *.
    now rewrite (registry_events_user_actions _ _ _ Hleaf).
  - apply error_user_observer.
  - unfold this. now rewrite error_user_observer.
  - unfold this. rewrite error_user_observer.
    apply (set_isStopped_teardowns l l w).
  - apply set_isStopped_flag.
Qed.

(** An endpoint with two registered teardowns: [complete()] runs them after
    the observer's handler. *)
Lemma C3_complete_unsubscribes_witness :
  let w := Subscription_add 0 (Some (TdUnsubscribable "u"))
             (Subscription_add 0 (Some (TdFunction "f")) world0) in
  forallb user_action (_teardowns (object_at w 0)) = true ∧
  trace <$> Subscriber_complete 1 endpoint0 w
  = Some [(0, ObsComplete "o"); (0, Called "f"); (0, Unsubscribed "u")] ∧
  trace (Subscriber_error endpoint0 4%Z w) = [(0, ObsError "o" 4%Z)].
Proof.
  pose proof (C3_complete_unsubscribes_error_does_not Z 0 "o" true true true
                "user" 0
                (Subscription_add 0 (Some (TdUnsubscribable "u"))
                   (Subscription_add 0 (Some (TdFunction "f")) world0))
                4%Z) as (_ & _ & Hc & _ & He & _).
  split; [reflexivity|]. split.
  - unfold endpoint0, full. rewrite (Hc eq_refl). reflexivity.
  - unfold endpoint0, full. rewrite He. reflexivity.
Defined.

(** C10: [unsubscribe()] leaves the stopped flag alone: on an endpoint that
    saw neither [error()] nor [complete()], a [next(v)] after
    [unsubscribe()] still reaches the observer's [next] handler. *)
Theorem C10_unsubscribe_does_not_stop (V : Type) (l : loc) (o : string)
    (he hc : bool) (ty : string) (fuel : nat) (w w' : World V) (value : V) :
  let s := mkSubscriber l (UserObserver o true he hc) ty in
  isStopped (object_at w l) = false →
  Subscription_unsubscribe fuel l w = Some w' →
  isStopped (object_at w' l) = false ∧
  Subscriber_next s value w' = log (ObsNext o value) w' ∧
  trace (Subscriber_next s value w') = trace w' ++ [(now w', ObsNext o value)].
Proof.
  intros s Hrun Hunsub.
  assert (Hflag : isStopped (object_at w' l) = false).
  { unfold object_at. now rewrite (unsubscribe_objects _ _ _ _ Hunsub). }
  split; [exact Hflag|]. simpl. now rewrite Hflag.
Qed.

Lemma C10_unsubscribe_does_not_stop_witness :
  let w := Subscription_add 0 (Some (TdFunction "f")) world0 in
  let w' := default w (Subscription_unsubscribe 1 0 w) in
  trace w' = [(0, Called "f")] ∧
  isStopped (object_at w' 0) = false ∧
  Subscriber_next endpoint0 9%Z w' = log (ObsNext "o" 9%Z) w' ∧
  trace (Subscriber_next endpoint0 9%Z w')
  = trace w' ++ [(now w', ObsNext "o" 9%Z)].
Proof.
  split; [reflexivity|].
  apply (C10_unsubscribe_does_not_stop Z 0 "o" true true "user" 1
           (Subscription_add 0 (Some (TdFunction "f")) world0)).
  - reflexivity.
  - reflexivity.
Defined.

(** ** Observable.subscribe *)

Section Subscribe.
Context {V : Type}.
Implicit Types (w : World V) (l : loc).

Lemma forEach_app {A : Type} (f : A → World V → option (World V))
    (xs ys : list A) w :
  forEach f (xs ++ ys) w = w' ← forEach f xs w; forEach f ys w'.
Proof.
  revert w. induction xs as [|x xs IH]; intros w; simpl; [reflexivity|].
  destruct (f x w) as [w1|]; simpl; [apply IH|reflexivity].
Qed.

(** Values pushed into a running endpoint over a user observer. *)
Lemma next_values fuel l (o : string) (hn he hc : bool) (ty : string)
    (values : list V) w :
  isStopped (object_at w l) = false →
  forEach (notify (mkSubscriber l (UserObserver o hn he hc) ty) fuel)
          (N <$> values) w
  = Some (emit (if hn then ObsNext o <$> values else []) w).
Proof.
  revert w. induction values as [|v values IH]; intros w Hrun.
  - simpl. destruct hn; now rewrite emit_nil.
  - cbn [fmap list_fmap forEach notify mbind option_bind Subscriber_next
         Observer_next has_next].
    rewrite Hrun. destruct hn; cbn [andb negb].
    + rewrite IH by exact Hrun. rewrite log_emit.
      now rewrite <- emit_app.
    + now rewrite IH by exact Hrun.
Qed.

Lemma alloc_object_fresh w :
  object_at (alloc_object w).2 (next_object w) = new_object.
Proof.
  unfold object_at, alloc_object. simpl. now rewrite lookup_insert_eq.
Qed.

End Subscribe.

(** A producer that completes before it returns: what [subscribe] leaves
    behind. *)
Lemma completed_producer_stores_teardown (V : Type) (values : list V)
    (td : Teardown) (o : string) (hn he hc : bool) (fuel : nat) (w : World V) :
  let stream := new_Observable (synchronous ((N <$> values) ++ [C]) (Some td)) in
  let l := next_object w in
  let s := mkSubscriber l (UserObserver o hn he hc) "user" in
  ∃ w', Observable_subscribe stream (UserObserver o hn he hc) (S fuel) w
        = Some (s, w') ∧
        trace w'
        = trace w ++ ((fun e => (now w, e)) <$>
                        ((if hn then ObsNext o <$> values else [])
                           ++ forwarded hc (ObsComplete o))) ∧
        now w' = now w ∧
        isStopped (object_at w' l) = true ∧
        _teardowns (object_at w' l) = [td] ∧
        (user_action td = true →
         Subscription_unsubscribe (S fuel) l w'
         = Some (emit (action_events td) w')).
Proof.
  intros stream l s.
  unfold Observable_subscribe, stream, new_Observable, synchronous.
  cbn [_subscribe Observable_type].
  destruct (alloc_object w) as [l0 w1] eqn:Ealloc.
  assert (l0 = l) as -> by (now inversion Ealloc).
  assert (Hfresh : object_at w1 l = new_object).
  { replace w1 with (alloc_object w).2 by now rewrite Ealloc.
    apply alloc_object_fresh. }
  assert (Hw1 : trace w1 = trace w ∧ now w1 = now w).
  { inversion Ealloc. now subst. }
  destruct Hw1 as [Htr Hnow].
  rewrite forEach_app.
  rewrite (next_values (S fuel) l o hn he hc "user" values w1)
    by (now rewrite Hfresh).
  cbn [mbind option_bind forEach notify].
  set (wa := emit (if hn then ObsNext o <$> values else []) w1).
  assert (Hreg : _teardowns (object_at wa l) = []).
  { unfold wa, object_at. cbn [objects emit].
    change (_teardowns (object_at w1 l) = []). now rewrite Hfresh. }
  rewrite complete_user_observer.
  rewrite (registry_events_user_actions fuel (objects wa) l)
    by (change (forallb user_action (_teardowns (object_at wa l)) = true);
        now rewrite Hreg).
  change (_teardowns (default new_object (objects wa !! l)))
    with (_teardowns (object_at wa l)).
  rewrite Hreg. cbn [fmap list_fmap concat option_fmap option_map mbind
                     option_bind].
  rewrite app_nil_r.
  set (wb := emit (forwarded hc (ObsComplete o)) (set_isStopped l wa)).
  eexists. split; [reflexivity|].
  assert (Hstored : _teardowns (object_at (Subscription_add l (Some td) wb) l)
                    = [td]).
  { rewrite teardowns_add_same. unfold wb.
    change (_teardowns (object_at (set_isStopped l wa) l) ++ [td] = [td]).
    now rewrite set_isStopped_teardowns, Hreg. }
  split; [|split; [|split; [|split]]].
  - unfold wb, wa. cbn [trace Subscription_add set_object emit now
                         set_isStopped].
    rewrite Htr, Hnow, fmap_app. now rewrite app_assoc.
  - exact Hnow.
  - cbn [Subscription_add].
    rewrite object_at_set_object, decide_True by reflexivity.
    cbn [isStopped]. unfold wb.
    change (isStopped (object_at (set_isStopped l wa) l) = true).
    apply set_isStopped_flag.
  - exact Hstored.
  - intros Huser. rewrite unsubscribe_events.
    rewrite (registry_events_user_actions fuel _ l).
    + change (_teardowns (default new_object
                 (objects (Subscription_add l (Some td) wb) !! l)))
        with (_teardowns (object_at (Subscription_add l (Some td) wb) l)).
      rewrite Hstored. cbn [fmap list_fmap concat option_fmap option_map].
      now rewrite app_nil_r.
    + change (forallb user_action
                (_teardowns (object_at (Subscription_add l (Some td) wb) l))
              = true).
      rewrite Hstored. cbn [forallb]. now rewrite Huser.
Qed.

(** C9 as stated fails in its last part: the stored teardown does not run
    only on an explicit [unsubscribe()].  [complete()] has no guard, so a
    later [complete()] on the endpoint runs it as well, with no call of
    [unsubscribe()]. *)
Lemma C9_later_complete_runs_teardown_counterexample :
  let stream := new_Observable (synchronous [C] (Some (TdFunction "f"))) in
  ∃ w', Observable_subscribe stream (full "o") 1 empty_world
        = Some (endpoint0, w') ∧
        trace w' = [(0, ObsComplete "o")] ∧
        _teardowns (object_at w' 0) = [TdFunction "f"] ∧
        trace <$> calls 1 [Wait 10; CallComplete endpoint0] w'
        = Some [(0, ObsComplete "o"); (10, ObsComplete "o");
                (10, Called "f")].
Proof.
  eexists. split; [reflexivity|]. repeat split.
Qed.

(** C9, amended: when the producer calls [complete()] before it returns, the
    teardown it returns is not invoked by that completion: at that moment
    the endpoint's registry is still empty, and [subscribe] stores the
    teardown afterwards.  Of the later calls on the returned endpoint,
    [unsubscribe()] invokes it and so does a further [complete()], after
    the observer's handler; [next] and [error] do not. *)
Theorem C9_teardown_stored_after_synchronous_complete (V : Type)
    (values : list V) (td : Teardown) (o : string) (hn he hc : bool)
    (fuel : nat) (w : World V) (v err : V) :
  user_action td = true →
  let stream := new_Observable (synchronous ((N <$> values) ++ [C]) (Some td)) in
  let l := next_object w in
  let s := mkSubscriber l (UserObserver o hn he hc) "user" in
  ∃ w', Observable_subscribe stream (UserObserver o hn he hc) (S fuel) w
        = Some (s, w') ∧
        trace w'
        = trace w ++ ((fun e => (now w, e)) <$>
                        ((if hn then ObsNext o <$> values else [])
                           ++ forwarded hc (ObsComplete o))) ∧
        _teardowns (object_at w' l) = [td] ∧
        Subscription_unsubscribe (S fuel) l w'
        = Some (emit (action_events td) w') ∧
        Subscriber_complete (S fuel) s w'
        = Some (emit (forwarded hc (ObsComplete o) ++ action_events td) w') ∧
        Subscriber_next s v w' = w' ∧
        Subscriber_error s err w' = emit (forwarded he (ObsError o err)) w'.
Proof.
  intros Huser stream l s.
  destruct (completed_producer_stores_teardown V values td o hn he hc fuel w)
    as (w' & Hsub & Htr & Hnow & Hflag & Hreg & Hun).
  fold l in Hflag, Hreg, Hun.
  exists w'. split; [exact Hsub|]. split; [exact Htr|]. split; [exact Hreg|].
  split; [exact (Hun Huser)|]. split; [|split].
  - unfold s. rewrite complete_user_observer.
    rewrite (registry_events_user_actions fuel (objects w') l)
      by (change (forallb user_action (_teardowns (object_at w' l)) = true);
          rewrite Hreg; cbn [forallb]; now rewrite Huser).
    change (_teardowns (default new_object (objects w' !! l)))
      with (_teardowns (object_at w' l)).
    rewrite Hreg, (set_isStopped_again l w' Hflag).
    cbn [fmap list_fmap concat option_fmap option_map]. now rewrite app_nil_r.
  - apply next_when_stopped. exact Hflag.
  - unfold s. rewrite error_user_observer.
    now rewrite (set_isStopped_again l w' Hflag).
Qed.

(** A producer that emits 1, completes and returns a cleanup procedure. *)
Lemma C9_teardown_stored_witness :
  let stream := new_Observable (synchronous [N 1%Z; C] (Some (TdFunction "f"))) in
  ∃ w', Observable_subscribe stream (full "o") 1 empty_world
        = Some (endpoint0, w') ∧
        trace w' = [(0, ObsNext "o" 1%Z); (0, ObsComplete "o")] ∧
        _teardowns (object_at w' 0) = [TdFunction "f"] ∧
        Subscription_unsubscribe 1 0 w' = Some (emit [Called "f"] w') ∧
        Subscriber_complete 1 endpoint0 w'
        = Some (emit [ObsComplete "o"; Called "f"] w') ∧
        Subscriber_next endpoint0 2%Z w' = w' ∧
        Subscriber_error endpoint0 3%Z w' = emit [ObsError "o" 3%Z] w'.
Proof.
  exact (C9_teardown_stored_after_synchronous_complete Z [1%Z]
           (TdFunction "f") "o" true true true 0 empty_world 2%Z 3%Z eq_refl).
Defined.

(** ** map *)

Section Map.
Context {V : Type}.
Implicit Types (w : World V) (l i u d : loc).

Lemma read_write x (n : nat) w : read x (write x n w) = n.
Proof. unfold read, write. simpl. now rewrite lookup_insert_eq. Qed.

Lemma isStopped_set_other l l' w :
  l ≠ l' →
  isStopped (object_at (set_isStopped l w) l') = isStopped (object_at w l').
Proof.
  intros Hne. unfold set_isStopped. rewrite object_at_set_object.
  now rewrite decide_False.
Qed.

Lemma registry_events_empty fuel w l :
  _teardowns (object_at w l) = [] →
  registry_events (V := V) (S fuel) (objects w) l = Some [].
Proof. unfold object_at. intros H. simpl. now rewrite H. Qed.

(** The endpoint that [map] hands to its upstream: what its three methods
    do, for any downstream endpoint. *)
Lemma map_upstream_next (project : V → nat → V) i u (ds : Subscriber V)
    (ty : string) (value : V) w :
  Subscriber_next (mkSubscriber u (MapObserver project i ds) ty) value w
  = if isStopped (object_at w u) then w
    else Subscriber_next ds (project value (read i w))
           (write i (S (read i w)) w).
Proof. simpl. now destruct (isStopped (object_at w u)). Qed.

Lemma map_upstream_error (project : V → nat → V) i u (ds : Subscriber V)
    (ty : string) (err : V) w :
  Subscriber_error (mkSubscriber u (MapObserver project i ds) ty) err w
  = Subscriber_error ds err (set_isStopped u w).
Proof. reflexivity. Qed.

Lemma map_upstream_complete (project : V → nat → V) i u (ds : Subscriber V)
    (ty : string) fuel w :
  Subscriber_complete fuel (mkSubscriber u (MapObserver project i ds) ty) w
  = w' ← Subscriber_complete fuel ds (set_isStopped u w);
    Subscription_unsubscribe fuel u w'.
Proof. reflexivity. Qed.

Lemma map_running_emit i u d k st t tr (evs : list (Event V)) w :
  map_running i u d k st t tr w →
  map_running i u d k st t (tr ++ ((fun e => (t, e)) <$> evs)) (emit evs w).
Proof.
  intros (Hne & Hi & Hsu & Hsd & Htu & Htd & Hnow & Htr).
  unfold map_running. cbn [trace now emit]. rewrite Hnow, Htr.
  repeat split; assumption.
Qed.

Lemma map_running_count i u d k k' st t tr w :
  map_running i u d k st t tr w →
  map_running i u d k' st t tr (write i k' w).
Proof.
  intros (Hne & Hi & Hsu & Hsd & Htu & Htd & Hnow & Htr).
  unfold map_running. rewrite read_write. repeat split; assumption.
Qed.

Lemma map_running_stop i u d k st t tr w :
  map_running i u d k st t tr w →
  map_running i u d k true t tr (set_isStopped d (set_isStopped u w)).
Proof.
  intros (Hne & Hi & Hsu & Hsd & Htu & Htd & Hnow & Htr).
  unfold map_running.
  rewrite !set_isStopped_teardowns, set_isStopped_flag.
  rewrite isStopped_set_other, set_isStopped_flag by auto.
  repeat split; assumption.
Qed.

Variables (project : V → nat → V) (o : string) (hn he hc : bool).
Variables (i u d : loc) (ty ty' : string).

Local Abbreviation downstream := (mkSubscriber d (UserObserver o hn he hc) ty).
Local Abbreviation upstream :=
  (mkSubscriber u (MapObserver project i downstream) ty').

(** One notification from the upstream producer. *)
Lemma map_notify fuel (n : Notification V) k st t tr w :
  map_running i u d k st t tr w →
  ∃ w', notify upstream (S fuel) n w = Some w' ∧
        match n with
        | N v =>
            if st then w' = w
            else map_running i u d (S k) false t
                   (tr ++ ((fun e => (t, e)) <$>
                             forwarded hn (ObsNext o (project v k)))) w'
        | E err =>
            map_running i u d k true t
              (tr ++ ((fun e => (t, e)) <$> forwarded he (ObsError o err))) w'
        | C =>
            map_running i u d k true t
              (tr ++ ((fun e => (t, e)) <$> forwarded hc (ObsComplete o))) w'
        end.
Proof.
  intros Hinv.
  pose proof Hinv as (Hne & Hi & Hsu & Hsd & Htu & Htd & Hnow & Htr).
  destruct n as [v|err|].
  - (* next *)
    eexists. split; [reflexivity|].
    rewrite map_upstream_next, Hsu.
    destruct st; [reflexivity|].
    cbn [Subscriber_next Observer_next has_next].
    change (object_at (write i (S (read i w)) w) d) with (object_at w d).
    rewrite Hsd, Hi, andb_true_r.
    replace (if hn then log (ObsNext o (project v k)) (write i (S k) w)
             else write i (S k) w)
      with (emit (forwarded hn (ObsNext o (project v k))) (write i (S k) w))
      by (destruct hn; [reflexivity|apply emit_nil]).
    now apply map_running_emit, map_running_count with (k := k).
  - (* error *)
    eexists. split; [reflexivity|].
    cbn [notify].
    rewrite map_upstream_error, error_user_observer.
    now apply map_running_emit, map_running_stop with (st := st).
  - (* complete *)
    cbn [notify].
    rewrite map_upstream_complete, complete_user_observer.
    rewrite (registry_events_empty fuel (set_isStopped u w) d)
      by (now rewrite set_isStopped_teardowns).
    cbn [fmap option_fmap option_map mbind option_bind].
    rewrite app_nil_r.
    set (w2 := emit (forwarded hc (ObsComplete o))
                 (set_isStopped d (set_isStopped u w))).
    assert (Hw2 : map_running i u d k true t
              (tr ++ ((fun e => (t, e)) <$> forwarded hc (ObsComplete o))) w2)
      by (now apply map_running_emit, map_running_stop with (st := st)).
    exists w2. split; [|exact Hw2].
    rewrite unsubscribe_events.
    destruct Hw2 as (_ & _ & _ & _ & Htu2 & _).
    rewrite (registry_events_empty fuel w2 u Htu2).
    cbn [fmap option_fmap option_map]. now rewrite emit_nil.
Qed.

(** The whole script. *)
Lemma map_script fuel (script : list (Notification V)) k st t tr w :
  map_running i u d k st t tr w →
  ∃ w' k', forEach (notify upstream (S fuel)) script w = Some w' ∧
        map_running i u d k' (isStopped (object_at w' u)) t
          (tr ++ ((fun e => (t, e)) <$>
                    map_events project o hn he hc k st script)) w'.
Proof.
  revert k st tr w. induction script as [|n script IH]; intros k st tr w Hinv.
  - exists w, k. split; [reflexivity|]. cbn [map_events fmap list_fmap].
    rewrite app_nil_r.
    destruct Hinv as (Hne & Hi & Hsu & Hsd & Htu & Htd & Hnow & Htr).
    unfold map_running. rewrite Hsu. repeat split; auto.
  - destruct (map_notify fuel n k st t tr w Hinv) as (w1 & Hstep & Hpost).
    cbn [forEach]. rewrite Hstep. cbn [mbind option_bind].
    destruct n as [v|err|]; cbn [map_events].
    + destruct st.
      * subst w1. apply IH, Hinv.
      * destruct (IH _ _ _ _ Hpost) as (w' & k' & Hrun & Hinv').
        exists w', k'. split; [exact Hrun|].
        now rewrite fmap_app, app_assoc.
    + destruct (IH _ _ _ _ Hpost) as (w' & k' & Hrun & Hinv').
      exists w', k'. split; [exact Hrun|].
      now rewrite fmap_app, app_assoc.
    + destruct (IH _ _ _ _ Hpost) as (w' & k' & Hrun & Hinv').
      exists w', k'. split; [exact Hrun|].
      now rewrite fmap_app, app_assoc.
Qed.

End Map.

Section MapSubscribe.
Context {V : Type}.

(** Subscribing to [map(project)] of a synchronous upstream. *)
Lemma map_subscribe (project : V → nat → V) (script : list (Notification V))
    (o : string) (hn he hc : bool) (fuel : nat) (w : World V) :
  ∃ w', Observable_subscribe
          (map project (new_Observable (synchronous script None)))
          (UserObserver o hn he hc) (S fuel) w
        = Some (mkSubscriber (next_object w) (UserObserver o hn he hc) "map", w') ∧
        trace w'
        = trace w ++ ((fun e => (now w, e)) <$>
                        map_events project o hn he hc 0 false script) ∧
        now w' = now w.
Proof.
  set (d := next_object w). set (u := S d). set (i := next_variable w).
  set (w3 := (alloc_object (alloc_variable 0 (alloc_object w).2).2).2).
  assert (Hinv : map_running i u d 0 false (now w) (trace w) w3).
  { unfold map_running, w3, object_at, read, alloc_object, alloc_variable.
    cbn [objects variables now trace snd next_object next_variable].
    fold d. fold u. fold i.
    rewrite lookup_insert_eq, lookup_insert_eq.
    rewrite lookup_insert_ne, lookup_insert_eq by (unfold u; lia).
    repeat split; try reflexivity. unfold u; lia. }
  destruct (map_script project o hn he hc i u d "map" "user" fuel script
              0 false (now w) (trace w) w3 Hinv)
    as (w4 & k' & Hrun & Hinv').
  destruct Hinv' as (_ & _ & _ & _ & _ & _ & Hnow & Htr).
  exists (Subscription_add d (Some (TdSubscription u)) w4).
  split; [|split; [exact Htr|exact Hnow]].
  unfold Observable_subscribe, map, new_Observable, synchronous.
  cbn [_subscribe Observable_type].
  change (alloc_object w) with (d, (alloc_object w).2). cbn iota.
  change (alloc_variable 0 (alloc_object w).2)
    with (i, (alloc_variable 0 (alloc_object w).2).2). cbn iota.
  unfold Observable_subscribe. cbn [_subscribe Observable_type].
  change (alloc_object (alloc_variable 0 (alloc_object w).2).2) with (u, w3).
  cbn iota. rewrite Hrun. reflexivity.
Qed.

End MapSubscribe.


(** ** debounceTime *)

Section Debounce.
Context {V : Type}.
Implicit Types (w : World V) (time u d : loc) (cb : Callback V).

Lemma clearTimeout_idle h w : timers w = [] → timers (clearTimeout h w) = [].
Proof. unfold clearTimeout. cbn [timers]. now intros ->. Qed.

Lemma clearTimeout_pending h t cb w :
  timers w = [mkTimer h t cb] → timers (clearTimeout h w) = [].
Proof.
  unfold clearTimeout. cbn [timers]. intros ->.
  rewrite filter_cons. cbn [handle]. now rewrite decide_False by tauto.
Qed.

(** The endpoint that [debounceTime] hands to its upstream: [next(v)]
    clears the timer whose handle [time] holds and schedules a new one. *)
Lemma debounce_upstream_next time (delay : nat) u (ds : Subscriber V)
    (ty : string) (v : V) w :
  Subscriber_next (mkSubscriber u (DebounceObserver time delay ds) ty) v w
  = if isStopped (object_at w u) then w
    else
      let w1 := if decide (read time w = 0) then w
                else clearTimeout (read time w) w in
      write time (next_handle w1) (setTimeout (TimerNext ds v) delay w1).2.
Proof.
  simpl. destruct (isStopped (object_at w u)); [reflexivity|].
  now destruct (decide (read time w = 0)).
Qed.

(** [next(v)] while no timer, or only the timer of [time], is pending. *)
Lemma debounce_next time (delay : nat) u (ds : Subscriber V) (ty : string)
    (v : V) w :
  isStopped (object_at w u) = false →
  0 < next_handle w →
  (timers w = [] ∨ ∃ h t cb, pending time h t cb w) →
  let w' := Subscriber_next (mkSubscriber u (DebounceObserver time delay ds) ty)
              v w in
  pending time (next_handle w) (now w + delay) (TimerNext ds v) w' ∧
  now w' = now w ∧ trace w' = trace w ∧ objects w' = objects w.
Proof.
  intros Hrun Hpos Hstate w'. unfold w'.
  rewrite debounce_upstream_next, Hrun. cbn zeta.
  set (w1 := if decide (read time w = 0) then w
             else clearTimeout (read time w) w).
  assert (H1 : timers w1 = [] ∧ next_handle w1 = next_handle w ∧
               now w1 = now w ∧ trace w1 = trace w ∧ objects w1 = objects w).
  { unfold w1. destruct Hstate as [Hidle|(h & t & cb & Htm & Hh & Hh0 & Hlt)].
    - destruct (decide (read time w = 0)); [now repeat split|].
      split; [now apply clearTimeout_idle|now repeat split].
    - rewrite Hh. rewrite decide_False by lia.
      split; [now apply (clearTimeout_pending h t cb)|now repeat split]. }
  destruct H1 as (Htm1 & Hnh1 & Hnow1 & Htr1 & Hobj1).
  unfold pending, read, write, setTimeout.
  cbn [timers variables next_handle now trace objects snd].
  rewrite Htm1, Hnh1, Hnow1, Htr1, Hobj1, lookup_insert_eq.
  cbn [default app]. repeat split; auto; lia.
Qed.

(** Waiting while the pending timer is not yet due. *)
Lemma wait_before_due fuel time h t cb (t' : nat) w :
  pending time h t cb w → t' < t →
  run_until fuel t' w = Some (set_now (now w `max` t') w).
Proof.
  intros (Htm & _) Hlt.
  assert (Hnone : next_timer t' w = None).
  { unfold next_timer. rewrite Htm. cbn [earliest due].
    now rewrite decide_False by lia. }
  destruct fuel; simpl; now rewrite Hnone.
Qed.

Lemma wait_idle fuel (t' : nat) w :
  timers w = [] → run_until fuel t' w = Some (set_now (now w `max` t') w).
Proof.
  intros Htm.
  assert (Hnone : next_timer t' w = None)
    by (unfold next_timer; now rewrite Htm).
  destruct fuel; simpl; now rewrite Hnone.
Qed.

(** Waiting past the due time: the timer fires and hands its value to the
    downstream endpoint. *)
Lemma wait_past_due fuel time h t d (o : string) (hn he hc : bool)
    (ty : string) (v : V) (t' : nat) w :
  pending time h t (TimerNext (mkSubscriber d (UserObserver o hn he hc) ty) v) w →
  isStopped (object_at w d) = false →
  now w ≤ t → t ≤ t' →
  ∃ w', run_until (S fuel) t' w = Some w' ∧
        trace w' = trace w ++ ((fun e => (t, e)) <$> forwarded hn (ObsNext o v)) ∧
        timers w' = [] ∧ now w' = t' ∧ objects w' = objects w ∧
        next_handle w' = next_handle w.
Proof.
  intros (Htm & Hh & Hh0 & Hlt) Hrun Hnow Hdue.
  assert (Hsome : next_timer t' w
                  = Some (mkTimer h t (TimerNext
                            (mkSubscriber d (UserObserver o hn he hc) ty) v))).
  { unfold next_timer. rewrite Htm. cbn [earliest due].
    now rewrite decide_True by lia. }
  cbn [run_until]. rewrite Hsome.
  set (w1 := fire _ w).
  assert (H1 : timers w1 = [] ∧ now w1 = t ∧ objects w1 = objects w ∧
               next_handle w1 = next_handle w ∧
               trace w1 = trace w ++ ((fun e => (t, e)) <$>
                                        forwarded hn (ObsNext o v))).
  { unfold w1, fire. cbn [callback handle due Subscriber_next Observer_next
                          has_next].
    change (object_at (set_now (now w `max` t) (clearTimeout h w)) d)
      with (object_at w d).
    rewrite Hrun. cbn [negb]. rewrite andb_true_r.
    replace (now w `max` t) with t by lia.
    destruct hn; cbn [forwarded fmap list_fmap log set_now timers now objects
                      next_handle trace].
    - rewrite (clearTimeout_pending h t _ w Htm). now repeat split.
    - rewrite (clearTimeout_pending h t _ w Htm), app_nil_r. now repeat split. }
  destruct H1 as (Htm1 & Hnow1 & Hobj1 & Hnh1 & Htr1).
  exists (set_now (now w1 `max` t') w1).
  split; [now apply wait_idle|].
  cbn [set_now trace timers now objects next_handle].
  repeat split; auto. lia.
Qed.

End Debounce.

Section Burst.
Context {V : Type}.
Implicit Types (w : World V) (time u d : loc).

Lemma last_cons (x dflt : nat * V) (l : list (nat * V)) :
  List.last (x :: l) dflt = List.last l x.
Proof.
  revert x dflt. induction l as [|y l IH]; intros x dflt; [reflexivity|].
  change (List.last (x :: y :: l) dflt) with (List.last (y :: l) dflt).
  now rewrite (IH y dflt), (IH y x).
Qed.

Lemma pending_set_now time h t (cb : Callback V) (t' : nat) w :
  pending time h t cb w → pending time h t cb (set_now t' w).
Proof. intros H. exact H. Qed.

Variables (delay : nat) (time u d : loc) (o : string) (hn he hc : bool).
Variables (ty ty' : string) (T fuel : nat).

Local Abbreviation ds := (mkSubscriber d (UserObserver o hn he hc) ty).
Local Abbreviation up := (mkSubscriber u (DebounceObserver time delay ds) ty').

(** The rest of a burst, the timer of the arrival before it pending. *)
Lemma burst_rest (rest : list (nat * V)) h (t : nat) (v : V) w :
  pending time h (t + delay) (TimerNext ds v) w →
  now w = t →
  isStopped (object_at w u) = false →
  isStopped (object_at w d) = false →
  burst delay t rest →
  (List.last rest (t, v)).1 + delay ≤ T →
  ∃ w', calls (S fuel) (feed up rest ++ [Wait T]) w = Some w' ∧
        trace w'
        = trace w ++ ((fun e => ((List.last rest (t, v)).1 + delay, e)) <$>
                        forwarded hn (ObsNext o (List.last rest (t, v)).2)) ∧
        timers w' = [].
Proof.
  revert h t v w.
  induction rest as [|[t' v'] rest IH]; intros h t v w Hpend Hnow Hu Hd Hb HT.
  - cbn [List.last fst snd] in *.
    destruct (wait_past_due fuel time h (t + delay) d o hn he hc ty v T w)
      as (w' & Hrun & Htr & Htm & _); auto; [lia|].
    exists w'. unfold calls. cbn [feed flat_map app forEach call].
    rewrite Hrun. now split.
  - destruct Hb as (Hle & Hlt & Hb). rewrite last_cons in *.
    unfold calls. cbn [feed flat_map app forEach call].
    rewrite (wait_before_due (S fuel) time h (t + delay) _ t' w Hpend Hlt).
    cbn [mbind option_bind]. replace (now w `max` t') with t' by lia.
    set (w1 := set_now t' w).
    destruct (debounce_next time delay u ds ty' v' w1) as (Hp2 & Hn2 & Ht2 & Ho2).
    { exact Hu. }
    { destruct Hpend as (_ & _ & ? & ?). unfold w1. cbn [next_handle set_now]. lia. }
    { right. exists h, (t + delay), (TimerNext ds v).
      now apply pending_set_now. }
    set (w2 := Subscriber_next up v' w1) in *.
    destruct (IH (next_handle w1) t' v' w2) as (w' & Hrun & Htr & Htm); auto.
    + unfold object_at. now rewrite Ho2.
    + unfold object_at. now rewrite Ho2.
    + exists w'. split; [exact Hrun|]. split; [|exact Htm].
      now rewrite Htr, Ht2.
Qed.

(** A whole burst, starting with no timer pending. *)
Lemma burst_from_idle (first : nat * V) (rest : list (nat * V)) w :
  timers w = [] →
  0 < next_handle w →
  isStopped (object_at w u) = false →
  isStopped (object_at w d) = false →
  now w ≤ first.1 →
  burst delay first.1 rest →
  (List.last rest first).1 + delay ≤ T →
  ∃ w', calls (S fuel) (feed up (first :: rest) ++ [Wait T]) w = Some w' ∧
        trace w'
        = trace w ++ ((fun e => ((List.last rest first).1 + delay, e)) <$>
                        forwarded hn (ObsNext o (List.last rest first).2)) ∧
        timers w' = [].
Proof.
  destruct first as [t0 v0]. cbn [fst].
  intros Htm Hpos Hu Hd Hnow Hb HT.
  unfold calls. cbn [feed flat_map app forEach call].
  rewrite (wait_idle (S fuel) t0 w Htm). cbn [mbind option_bind].
  replace (now w `max` t0) with t0 by lia.
  set (w1 := set_now t0 w).
  destruct (debounce_next time delay u ds ty' v0 w1) as (Hp2 & Hn2 & Ht2 & Ho2).
  { exact Hu. }
  { exact Hpos. }
  { now left. }
  set (w2 := Subscriber_next up v0 w1) in *.
  destruct (burst_rest rest (next_handle w1) t0 v0 w2) as (w' & Hrun & Htr & Htm');
    auto.
  - unfold object_at. now rewrite Ho2.
  - unfold object_at. now rewrite Ho2.
  - exists w'. split; [exact Hrun|]. split; [|exact Htm'].
    now rewrite Htr, Ht2.
Qed.

End Burst.

(** C7: [debounceTime(delay)] is a trailing-edge debounce.  Within one
    subscription every [next(v)] from upstream leaves exactly one timer
    pending, the one that hands [v] downstream [delay] later; so of a burst
    only the last value is emitted, [delay] after its arrival.  With
    [debounceTime(100)] and values at times 0, 30, 60, 90 the only emission
    is the value of time 90, at time 190. *)
Theorem C7_debounce_trailing_edge :
  (∀ (V : Type) (delay : nat) (time u d : loc) (o : string) (hn he hc : bool)
     (ty ty' : string) (first : nat * V) (rest : list (nat * V))
     (T fuel : nat) (w : World V),
      let ds := mkSubscriber d (UserObserver o hn he hc) ty in
      let up := mkSubscriber u (DebounceObserver time delay ds) ty' in
      let final := List.last rest first in
      timers w = [] →
      0 < next_handle w →
      isStopped (object_at w u) = false →
      isStopped (object_at w d) = false →
      now w ≤ first.1 →
      burst delay first.1 rest →
      final.1 + delay ≤ T →
      ∃ w', calls (S fuel) (feed up (first :: rest) ++ [Wait T]) w = Some w' ∧
            trace w'
            = trace w ++ ((fun e => (final.1 + delay, e)) <$>
                            forwarded hn (ObsNext o final.2)) ∧
            timers w' = []) ∧
  (∀ (V : Type) (delay : nat) (time u : loc) (ds : Subscriber V) (ty : string)
     (v : V) (w : World V),
      let up := mkSubscriber u (DebounceObserver time delay ds) ty in
      isStopped (object_at w u) = false →
      0 < next_handle w →
      (timers w = [] ∨ ∃ h t cb, pending time h t cb w) →
      pending time (next_handle w) (now w + delay) (TimerNext ds v)
              (Subscriber_next up v w) ∧
      trace (Subscriber_next up v w) = trace w) ∧
  (let source := new_Observable
                   (timed [(0, 1%Z); (30, 2%Z); (60, 3%Z); (90, 4%Z)] None) in
   w ← snd <$> Observable_subscribe (Observable_pipe source [debounce100])
                 (full "o") 1 debounce100_world;
   trace <$> run_until 8 1000 w)
  = Some [(190, ObsNext "o" 4%Z)].
Proof.
  split; [|split; [|vm_compute; reflexivity]].
  - intros V delay time u d o hn he hc ty ty' first rest T fuel w ds up final
           Htm Hpos Hu Hd Hnow Hb HT.
    now apply burst_from_idle.
  - intros V delay time u ds ty v w up Hu Hpos Hstate.
    now destruct (debounce_next time delay u ds ty v w Hu Hpos Hstate)
      as (? & _ & ? & _).
Qed.

(** The example of the specification, on the endpoint that
    [debounceTime(100)] handed to a silent source. *)
Lemma C7_debounce_trailing_edge_witness :
  ∃ w', calls 1 (feed debounced_up [(0, 1%Z); (30, 2%Z); (60, 3%Z); (90, 4%Z)]
                   ++ [Wait 1000]) debounced_world = Some w' ∧
        trace w' = [(190, ObsNext "o" 4%Z)] ∧
        timers w' = [].
Proof.
  destruct (proj1 C7_debounce_trailing_edge Z 100 0 1 0 "o" true true true
              "debounceTime" "user" (0, 1%Z) [(30, 2%Z); (60, 3%Z); (90, 4%Z)]
              1000 0 debounced_world) as (w' & Hrun & Htr & Htm).
  - reflexivity.
  - vm_compute. lia.
  - reflexivity.
  - reflexivity.
  - vm_compute. lia.
  - cbn [burst fst]. lia.
  - cbn [List.last fst]. lia.
  - exists w'. split; [exact Hrun|]. split; [exact Htr|exact Htm].
Defined.

(** The endpoints named in the examples are the ones the operator creates:
    a source that emits 5 on subscription delivers it to [debounced_up]. *)
Example debounced_up_is_the_upstream_endpoint :
  Observable_subscribe (Observable_pipe silent [debounce100]) (full "o") 1
                       debounce100_world
  = Some (debounced_down, debounced_world) ∧
  snd <$> Observable_subscribe
            (Observable_pipe (new_Observable (synchronous [N 5%Z] None))
                             [debounce100])
            (full "o") 1 debounce100_world
  = Some (Subscription_add 0 (Some (TdSubscription 1))
            (Subscriber_next debounced_up 5%Z
               (alloc_object (alloc_object debounce100_world).2).2)).
Proof. split; vm_compute; reflexivity. Qed.

Section Shared.
Context {V : Type}.
Implicit Types (w : World V).

(** Two endpoints over the same variable [time]: the value handed to the
    first is lost when the second receives one before the timer is due. *)
Lemma shared_slot_cancels (delay : nat) (time uA uB dA dB : loc)
    (oA oB : string) (hn he hc hn' he' hc' : bool) (tyA tyB ty ty' : string)
    (a b : V) (t1 T fuel : nat) w :
  let upA := mkSubscriber uA
               (DebounceObserver time delay
                  (mkSubscriber dA (UserObserver oA hn he hc) tyA)) ty in
  let upB := mkSubscriber uB
               (DebounceObserver time delay
                  (mkSubscriber dB (UserObserver oB hn' he' hc') tyB)) ty' in
  timers w = [] →
  0 < next_handle w →
  isStopped (object_at w uA) = false →
  isStopped (object_at w uB) = false →
  isStopped (object_at w dB) = false →
  now w ≤ t1 → t1 < now w + delay → t1 + delay ≤ T →
  ∃ w', calls (S fuel) [CallNext upA a; Wait t1; CallNext upB b; Wait T] w
        = Some w' ∧
        trace w' = trace w ++ ((fun e => (t1 + delay, e)) <$>
                                 forwarded hn' (ObsNext oB b)) ∧
        timers w' = [].
Proof.
  intros upA upB Htm Hpos HuA HuB HdB Hle Hlt HT.
  set (dsA := mkSubscriber dA (UserObserver oA hn he hc) tyA) in *.
  set (dsB := mkSubscriber dB (UserObserver oB hn' he' hc') tyB) in *.
  destruct (debounce_next time delay uA dsA ty a w HuA Hpos (or_introl Htm))
    as (Hp1 & Hn1 & Ht1 & Ho1).
  fold upA in Hp1, Hn1, Ht1, Ho1.
  set (w1 := Subscriber_next upA a w) in *.
  unfold calls. cbn [forEach call mbind option_bind]. fold w1.
  rewrite (wait_before_due (S fuel) time _ _ _ t1 w1 Hp1) by lia.
  cbn [mbind option_bind]. replace (now w1 `max` t1) with t1 by lia.
  set (w2 := set_now t1 w1).
  destruct (debounce_next time delay uB dsB ty' b w2) as (Hp3 & Hn3 & Ht3 & Ho3).
  { unfold object_at, w2. cbn [objects set_now]. rewrite Ho1. exact HuB. }
  { destruct Hp1 as (_ & _ & ? & ?). unfold w2. cbn [next_handle set_now]. lia. }
  { right. exists (next_handle w), (now w + delay), (TimerNext dsA a).
    exact Hp1. }
  fold upB in Hp3, Hn3, Ht3, Ho3.
  set (w3 := Subscriber_next upB b w2) in *.
  destruct (wait_past_due fuel time (next_handle w2) (now w2 + delay) dB oB
              hn' he' hc' tyB b T w3) as (w' & Hrun & Htr & Htm' & _).
  { exact Hp3. }
  { unfold object_at. rewrite Ho3. unfold w2. cbn [objects set_now].
    rewrite Ho1. exact HdB. }
  { rewrite Hn3. lia. }
  { unfold w2. cbn [now set_now]. lia. }
  exists w'. rewrite Hrun. split; [reflexivity|]. split; [|exact Htm'].
  rewrite Htr, Ht3. unfold w2. cbn [trace now set_now]. now rewrite Ht1.
Qed.

End Shared.

(** C8: the variable [time] belongs to the call [debounceTime(delay)]: the
    producer of every stream the returned operator builds subscribes
    upstream with an observer over that one variable, whatever the
    subscription; so a value arriving on one subscription cancels the timer
    pending for another, whose value is then never delivered. *)
Theorem C8_debounce_timer_slot_is_shared :
  (∀ (V : Type) (delay : nat) (w0 : World V),
      let op := (debounceTime delay w0).1 in
      let time := next_variable w0 in
      (∀ (observable : Observable V) (subscriber : Subscriber V) (fuel : nat)
         (w : World V),
          _subscribe (op observable) subscriber fuel w
          = '(s, w') ← Observable_subscribe observable
                         (DebounceObserver time delay subscriber) fuel w;
            Some (Some (TdSubscription (Subscriber_loc s)), w')) ∧
      (∀ (uA uB dA dB : loc) (oA oB : string) (a b : V) (t1 T fuel : nat)
         (w : World V),
          let upA := mkSubscriber uA
                       (DebounceObserver time delay
                          (mkSubscriber dA (UserObserver oA true true true)
                                        "debounceTime")) "user" in
          let upB := mkSubscriber uB
                       (DebounceObserver time delay
                          (mkSubscriber dB (UserObserver oB true true true)
                                        "debounceTime")) "user" in
          timers w = [] →
          0 < next_handle w →
          isStopped (object_at w uA) = false →
          isStopped (object_at w uB) = false →
          isStopped (object_at w dB) = false →
          now w ≤ t1 → t1 < now w + delay → t1 + delay ≤ T →
          ∃ w', calls (S fuel) [CallNext upA a; Wait t1; CallNext upB b; Wait T] w
                = Some w' ∧
                trace w' = trace w ++ [(t1 + delay, ObsNext oB b)] ∧
                timers w' = [])) ∧
  (let source t v := new_Observable (timed [(t, v)] None) in
   w1 ← snd <$> Observable_subscribe
                  (Observable_pipe (source 0 1%Z) [debounce100])
                  (full "A") 1 debounce100_world;
   w2 ← snd <$> Observable_subscribe
                  (Observable_pipe (source 50 2%Z) [debounce100])
                  (full "B") 1 w1;
   trace <$> run_until 8 1000 w2)
  = Some [(150, ObsNext "B" 2%Z)].
Proof.
  split; [|vm_compute; reflexivity].
  intros V delay w0 op time. split; [reflexivity|].
  intros uA uB dA dB oA oB a b t1 T fuel w upA upB
         Htm Hpos HuA HuB HdB Hle Hlt HT.
  now apply (shared_slot_cancels delay time uA uB dA dB oA oB
               true true true true true true).
Qed.

(** Two subscriptions through one [debounceTime(100)]: 1 is handed to the
    first at time 0, 2 to the second at time 50; only 2 comes out. *)
Lemma C8_debounce_timer_slot_is_shared_witness :
  ∃ w', calls 1 [CallNext shared_up_A 1%Z; Wait 50;
                 CallNext shared_up_B 2%Z; Wait 1000] shared_world = Some w' ∧
        trace w' = [(150, ObsNext "B" 2%Z)] ∧
        timers w' = [].
Proof.
  destruct (proj2 (proj1 C8_debounce_timer_slot_is_shared Z 100 empty_world)
              1 3 0 2 "A" "B" 1%Z 2%Z 50 1000 0 shared_world)
    as (w' & Hrun & Htr & Htm).
  - reflexivity.
  - vm_compute. lia.
  - reflexivity.
  - reflexivity.
  - reflexivity.
  - vm_compute. lia.
  - vm_compute. lia.
  - lia.
  - exists w'. split; [exact Hrun|]. split; [exact Htr|exact Htm].
Defined.

(** * Further properties of the code *)

(** ** pipeFromArray: composition *)

Lemma pipeFromArray_fold {T : Type} (fns : list (T → T)) (input : T) :
  pipeFromArray fns input = fold_left (fun prev fn => fn prev) fns input.
Proof. now destruct fns as [|f [|g fns]]. Qed.

(** Piping through [fns] and then through [gns] is piping through their
    concatenation; so [pipe(op1, op2)] is [op2(op1(this))] and chained
    [pipe] calls equal one call with all the operators. *)
Theorem pipe_composes :
  (∀ (T : Type) (fns gns : list (T → T)) (input : T),
      pipeFromArray (fns ++ gns) input
      = pipeFromArray gns (pipeFromArray fns input)) ∧
  (∀ (V : Type) (this : Observable V) (op1 op2 : Observable V → Observable V),
      Observable_pipe this [op1; op2] = op2 (op1 this)) ∧
  (∀ (V : Type) (this : Observable V)
     (ops1 ops2 : list (Observable V → Observable V)),
      Observable_pipe (Observable_pipe this ops1) ops2
      = Observable_pipe this (ops1 ++ ops2)).
Proof.
  split; [|split].
  - intros T fns gns input. rewrite !pipeFromArray_fold. apply fold_left_app.
  - reflexivity.
  - intros V this ops1 ops2. unfold Observable_pipe.
    rewrite !pipeFromArray_fold. symmetry. apply fold_left_app.
Qed.

(** ** Subscription: repeated and cyclic unsubscribe *)

Section RegistryMore.
Context {V : Type}.
Implicit Types (w : World V) (l : loc).

Lemma events_of_None (g : Teardown → option (list (Event V))) tds td :
  In td tds → g td = None → events_of g tds = None.
Proof.
  intros Hin Hg. induction tds as [|td' tds IH]; [destruct Hin|].
  simpl. destruct Hin as [->|Hin].
  - now rewrite Hg.
  - rewrite (IH Hin). now destruct (g td').
Qed.

Lemma registry_events_self fuel (objs : gmap loc Object) l :
  In (TdSubscription l) (_teardowns (default new_object (objs !! l))) →
  registry_events (V := V) fuel objs l = None.
Proof.
  intros Hin. induction fuel as [|fuel IH]; [reflexivity|].
  simpl. now apply (events_of_None _ _ (TdSubscription l)).
Qed.

End RegistryMore.

(** [unsubscribe()] neither empties the registry nor remembers that it ran:
    a second call returns as well and invokes again, in the same order,
    everything the first call invoked. *)
Theorem unsubscribe_twice_replays (V : Type) (fuel : nat) (l : loc)
    (w w1 : World V) :
  Subscription_unsubscribe fuel l w = Some w1 →
  let invoked := drop (length (trace w)) (trace w1) in
  _teardowns (object_at w1 l) = _teardowns (object_at w l) ∧
  trace w1 = trace w ++ invoked ∧
  ∃ w2, Subscription_unsubscribe fuel l w1 = Some w2 ∧
        trace w2 = trace w ++ invoked ++ invoked.
Proof.
  rewrite unsubscribe_events.
  destruct (registry_events fuel (objects w) l) as [evs|] eqn:Hev;
    [|discriminate].
  intros [= <-]. cbn zeta. cbn [trace emit]. rewrite drop_app_length.
  split; [reflexivity|]. split; [reflexivity|].
  exists (emit evs (emit evs w)). split.
  - rewrite unsubscribe_events.
    change (objects (emit evs w)) with (objects w). now rewrite Hev.
  - cbn [trace emit now]. now rewrite app_assoc.
Qed.

Lemma unsubscribe_twice_replays_witness :
  let w := Subscription_add 0 (Some (TdUnsubscribable "u"))
             (Subscription_add 0 (Some (TdFunction "f")) world0) in
  let w1 := default w (Subscription_unsubscribe 1 0 w) in
  ∃ w2, Subscription_unsubscribe 1 0 w1 = Some w2 ∧
        trace w2 = [(0, Called "f"); (0, Unsubscribed "u");
                    (0, Called "f"); (0, Unsubscribed "u")].
Proof.
  destruct (unsubscribe_twice_replays Z 1 0
              (Subscription_add 0 (Some (TdUnsubscribable "u"))
                 (Subscription_add 0 (Some (TdFunction "f")) world0))
              (default world0
                 (Subscription_unsubscribe 1 0
                    (Subscription_add 0 (Some (TdUnsubscribable "u"))
                       (Subscription_add 0 (Some (TdFunction "f")) world0))))
              eq_refl) as (_ & _ & w2 & Hrun & Htr).
  exists w2. split; [exact Hrun|]. rewrite Htr. reflexivity.
Defined.

(** A subscription registered in itself: [s.add(s); s.unsubscribe()] never
    returns, however deep the recursion may go. *)
Theorem unsubscribe_of_self_registered_never_returns (V : Type) (fuel : nat)
    (l : loc) (w : World V) :
  Subscription_unsubscribe fuel l
    (Subscription_add l (Some (TdSubscription l)) w) = None.
Proof.
  rewrite unsubscribe_events, registry_events_self; [reflexivity|].
  change (In (TdSubscription l)
            (_teardowns (object_at
                           (Subscription_add l (Some (TdSubscription l)) w) l))).
  rewrite teardowns_add_same. apply in_or_app. right. now left.
Qed.

(** ** Observable.subscribe: independent activations *)

Section Activation.
Context {V : Type}.
Implicit Types (w : World V) (l : loc).

Lemma endpoint_running_emit l st t tr (evs : list (Event V)) w :
  endpoint_running l st t tr w →
  endpoint_running l st t (tr ++ ((fun e => (t, e)) <$> evs)) (emit evs w).
Proof.
  intros (Hs & Htd & Hnow & Htr). unfold endpoint_running.
  cbn [trace now emit]. rewrite Hnow, Htr. now repeat split.
Qed.

Lemma endpoint_running_stop l st t tr w :
  endpoint_running l st t tr w →
  endpoint_running l true t tr (set_isStopped l w).
Proof.
  intros (Hs & Htd & Hnow & Htr). unfold endpoint_running.
  rewrite set_isStopped_teardowns, set_isStopped_flag. now repeat split.
Qed.

Variables (l : loc) (o : string) (hn he hc : bool) (ty : string).

Local Abbreviation endpoint := (mkSubscriber l (UserObserver o hn he hc) ty).

(** A producer's script against its own endpoint. *)
Lemma endpoint_script fuel (script : list (Notification V)) st t tr w :
  endpoint_running l st t tr w →
  ∃ w', forEach (notify endpoint (S fuel)) script w = Some w' ∧
        endpoint_running l (st || terminates script) t
          (tr ++ ((fun e => (t, e)) <$> delivered o hn he hc st script)) w' ∧
        next_object w' = next_object w.
Proof.
  revert st tr w. induction script as [|n script IH]; intros st tr w Hinv.
  - exists w. split; [reflexivity|]. cbn [delivered terminates existsb fmap
                                          list_fmap].
    now rewrite orb_false_r, app_nil_r.
  - pose proof Hinv as (Hs & Htd & Hnow & Htr).
    destruct n as [v|err|]; cbn [forEach notify delivered terminates existsb
                                  mbind option_bind].
    + fold (terminates script).
      cbn [Subscriber_next Observer_next has_next]. rewrite Hs.
      destruct st; cbn [negb orb].
      * rewrite andb_false_r. apply (IH true), Hinv.
      * rewrite andb_true_r.
        replace (if hn then log (ObsNext o v) w else w)
          with (emit (forwarded hn (ObsNext o v)) w)
          by (destruct hn; [reflexivity|apply emit_nil]).
        destruct (IH false _ _
                    (endpoint_running_emit l false t tr
                       (forwarded hn (ObsNext o v)) w Hinv))
          as (w' & Hrun & Hinv' & Hno).
        exists w'. split; [exact Hrun|]. split; [|exact Hno].
        now rewrite fmap_app, app_assoc.
    + fold (terminates script). rewrite error_user_observer.
      destruct (IH true _ _
                  (endpoint_running_emit l true t tr
                     (forwarded he (ObsError o err)) _
                     (endpoint_running_stop l st t tr w Hinv)))
        as (w' & Hrun & Hinv' & Hno).
      exists w'. split; [exact Hrun|]. rewrite orb_true_r.
      split; [|exact Hno]. now rewrite fmap_app, app_assoc.
    + fold (terminates script). rewrite complete_user_observer.
      rewrite (registry_events_empty fuel w l Htd).
      cbn [fmap option_fmap option_map mbind option_bind]. rewrite app_nil_r.
      destruct (IH true _ _
                  (endpoint_running_emit l true t tr
                     (forwarded hc (ObsComplete o)) _
                     (endpoint_running_stop l st t tr w Hinv)))
        as (w' & Hrun & Hinv' & Hno).
      exists w'. split; [exact Hrun|]. rewrite orb_true_r.
      split; [|exact Hno]. now rewrite fmap_app, app_assoc.
Qed.

End Activation.

Section Subscribing.
Context {V : Type}.

(** One [subscribe] on a stream with a synchronous producer. *)
Lemma subscribe_synchronous (script : list (Notification V))
    (td : TeardownLogic) (o : string) (hn he hc : bool) (fuel : nat)
    (w : World V) :
  ∃ w', Observable_subscribe (new_Observable (synchronous script td))
          (UserObserver o hn he hc) (S fuel) w
        = Some (mkSubscriber (next_object w) (UserObserver o hn he hc) "user",
                w') ∧
        trace w' = trace w ++ ((fun e => (now w, e)) <$>
                                 delivered o hn he hc false script) ∧
        _teardowns (object_at w' (next_object w)) = option_list td ∧
        isStopped (object_at w' (next_object w)) = terminates script ∧
        now w' = now w ∧ next_object w' = S (next_object w).
Proof.
  set (l := next_object w). set (w1 := (alloc_object w).2).
  assert (Hinv : endpoint_running l false (now w) (trace w) w1).
  { unfold endpoint_running, w1, l. rewrite alloc_object_fresh.
    now repeat split. }
  destruct (endpoint_script l o hn he hc "user" fuel script false (now w)
              (trace w) w1 Hinv) as (w2 & Hrun & (Hs & Htd & Hnow & Htr) & Hno).
  exists (Subscription_add l td w2).
  assert (Hsub : Observable_subscribe (new_Observable (synchronous script td))
                   (UserObserver o hn he hc) (S fuel) w
                 = Some (mkSubscriber l (UserObserver o hn he hc) "user",
                         Subscription_add l td w2)).
  { unfold Observable_subscribe, new_Observable, synchronous.
    cbn [_subscribe Observable_type].
    change (alloc_object w) with (l, w1). cbn iota.
    rewrite Hrun. reflexivity. }
  split; [exact Hsub|].
  destruct td as [t|].
  - rewrite teardowns_add_same, Htd.
    cbn [Subscription_add]. rewrite object_at_set_object, decide_True by easy.
    cbn [isStopped trace now next_object set_object option_list app].
    rewrite Hs, Htr, Hnow, Hno. now repeat split.
  - cbn [Subscription_add option_list]. rewrite Hs, Htd, Htr, Hnow, Hno.
    now repeat split.
Qed.

End Subscribing.

(** Every [subscribe] is an activation of its own: it creates a new
    endpoint, runs the producer against it before returning, and registers
    the returned teardown; a second subscriber to the same stream gets the
    whole sequence again, also when the first subscription has terminated. *)
Theorem subscribe_runs_producer_afresh (V : Type)
    (script : list (Notification V)) (td : TeardownLogic) (o o' : string)
    (hn he hc hn' he' hc' : bool) (fuel : nat) (w : World V) :
  let stream := new_Observable (synchronous script td) in
  let first := mkSubscriber (next_object w) (UserObserver o hn he hc) "user" in
  let second :=
    mkSubscriber (S (next_object w)) (UserObserver o' hn' he' hc') "user" in
  ∃ w' w'',
    Observable_subscribe stream (UserObserver o hn he hc) (S fuel) w
    = Some (first, w') ∧
    trace w' = trace w ++ ((fun e => (now w, e)) <$>
                             delivered o hn he hc false script) ∧
    _teardowns (object_at w' (next_object w)) = option_list td ∧
    isStopped (object_at w' (next_object w)) = terminates script ∧
    Observable_subscribe stream (UserObserver o' hn' he' hc') (S fuel) w'
    = Some (second, w'') ∧
    trace w'' = trace w' ++ ((fun e => (now w, e)) <$>
                               delivered o' hn' he' hc' false script) ∧
    _teardowns (object_at w'' (S (next_object w))) = option_list td.
Proof.
  intros stream first second.
  destruct (subscribe_synchronous script td o hn he hc fuel w)
    as (w' & Hsub & Htr & Htd & Hs & Hnow & Hno).
  destruct (subscribe_synchronous script td o' hn' he' hc' fuel w')
    as (w'' & Hsub' & Htr' & Htd' & _).
  rewrite Hno in Hsub', Htd'. rewrite Hnow in Htr'.
  exists w', w''. now repeat split.
Qed.

(** ** map: teardown through the operator *)

Section MapTeardown.
Context {V : Type}.
Implicit Types (w : World V) (l u d : loc).

Lemma objects_emit (evs : list (Event V)) w : objects (emit evs w) = objects w.
Proof. reflexivity. Qed.

Lemma teardowns_add_other l l' (td : TeardownLogic) w :
  l ≠ l' →
  _teardowns (object_at (Subscription_add l td w) l')
  = _teardowns (object_at w l').
Proof.
  intros Hne. destruct td as [t|]; [|reflexivity].
  cbn [Subscription_add]. now rewrite object_at_set_object, decide_False.
Qed.

Lemma teardowns_add l (td : TeardownLogic) w :
  _teardowns (object_at (Subscription_add l td w) l)
  = _teardowns (object_at w l) ++ option_list td.
Proof.
  destruct td as [t|]; [apply teardowns_add_same|].
  cbn [Subscription_add option_list]. now rewrite app_nil_r.
Qed.

Lemma isStopped_add l l' (td : TeardownLogic) w :
  isStopped (object_at (Subscription_add l td w) l')
  = isStopped (object_at w l').
Proof.
  destruct td as [t|]; [|reflexivity].
  cbn [Subscription_add]. rewrite object_at_set_object.
  now destruct (decide (l = l')) as [->|].
Qed.

(** A registry that holds one subscription invokes what that one invokes. *)
Lemma registry_events_linked fuel (objs : gmap loc Object) d u :
  _teardowns (default new_object (objs !! d)) = [TdSubscription u] →
  registry_events (V := V) (S fuel) objs d = registry_events fuel objs u.
Proof.
  intros H. simpl. rewrite H. simpl.
  destruct (registry_events fuel objs u); simpl; [|reflexivity].
  now rewrite app_nil_r.
Qed.

Lemma registry_events_single fuel (objs : gmap loc Object) u (t : Teardown) :
  _teardowns (default new_object (objs !! u)) = [t] →
  user_action t = true →
  registry_events (V := V) (S fuel) objs u = Some (action_events t).
Proof.
  intros H Ht. rewrite registry_events_user_actions.
  - rewrite H. simpl. now rewrite app_nil_r.
  - rewrite H. simpl. now rewrite Ht.
Qed.

(** Subscribing to [map(project)] of a synchronous source that returns a
    teardown: the registries afterwards. *)
Lemma map_subscribed (project : V → nat → V) (script : list (Notification V))
    (td : TeardownLogic) (o : string) (hn he hc : bool) (fuel : nat) w :
  let d := next_object w in
  let u := S (next_object w) in
  ∃ w', Observable_subscribe
          (map project (new_Observable (synchronous script td)))
          (UserObserver o hn he hc) (S fuel) w
        = Some (mkSubscriber d (UserObserver o hn he hc) "map", w') ∧
        trace w'
        = trace w ++ ((fun e => (now w, e)) <$>
                        map_events project o hn he hc 0 false script) ∧
        now w' = now w ∧
        _teardowns (object_at w' d) = [TdSubscription u] ∧
        _teardowns (object_at w' u) = option_list td.
Proof.
  intros d u. set (i := next_variable w).
  set (w3 := (alloc_object (alloc_variable 0 (alloc_object w).2).2).2).
  assert (Hinv : map_running i u d 0 false (now w) (trace w) w3).
  { unfold map_running, w3, object_at, read, alloc_object, alloc_variable.
    cbn [objects variables now trace snd next_object next_variable].
    fold d. fold i. change (S d) with u.
    rewrite lookup_insert_eq, lookup_insert_eq.
    rewrite lookup_insert_ne, lookup_insert_eq by (unfold u; lia).
    repeat split; try reflexivity. unfold u, d; lia. }
  destruct (map_script project o hn he hc i u d "map" "user" fuel script
              0 false (now w) (trace w) w3 Hinv)
    as (w4 & k' & Hrun & Hinv').
  destruct Hinv' as (Hne & _ & _ & _ & Htu & Htd & Hnow & Htr).
  exists (Subscription_add d (Some (TdSubscription u)) (Subscription_add u td w4)).
  split; [|split; [|split; [|split]]].
  - unfold Observable_subscribe, map, new_Observable, synchronous.
    cbn [_subscribe Observable_type].
    change (alloc_object w) with (d, (alloc_object w).2). cbn iota.
    change (alloc_variable 0 (alloc_object w).2)
      with (i, (alloc_variable 0 (alloc_object w).2).2). cbn iota.
    unfold Observable_subscribe. cbn [_subscribe Observable_type].
    change (alloc_object (alloc_variable 0 (alloc_object w).2).2) with (u, w3).
    cbn iota. rewrite Hrun. reflexivity.
  - destruct td; exact Htr.
  - destruct td; exact Hnow.
  - rewrite teardowns_add_same, teardowns_add_other by exact Hne.
    now rewrite Htd.
  - rewrite teardowns_add_other by auto. rewrite teardowns_add. now rewrite Htu.
Qed.

End MapTeardown.

(** Unsubscribing the subscription that [map] returned reaches the source:
    the teardown the source's producer returned is invoked, once. *)
Theorem map_unsubscribe_reaches_source (V : Type) (project : V → nat → V)
    (script : list (Notification V)) (t : Teardown) (o : string)
    (hn he hc : bool) (fuel : nat) (w : World V) :
  user_action t = true →
  let stream := map project (new_Observable (synchronous script (Some t))) in
  let d := mkSubscriber (next_object w) (UserObserver o hn he hc) "map" in
  ∃ w' w'',
    Observable_subscribe stream (UserObserver o hn he hc) (S (S fuel)) w
    = Some (d, w') ∧
    Subscription_unsubscribe (S (S fuel)) (Subscriber_loc d) w' = Some w'' ∧
    trace w'' = trace w' ++ ((fun e => (now w, e)) <$> action_events t).
Proof.
  intros Ht stream d.
  destruct (map_subscribed project script (Some t) o hn he hc (S fuel) w)
    as (w' & Hsub & _ & Hnow & Hd & Hu).
  exists w', (emit (action_events t) w'). split; [exact Hsub|].
  cbn [Subscriber_loc d]. rewrite unsubscribe_events.
  rewrite (registry_events_linked (S fuel) (objects w') _ _ Hd).
  rewrite (registry_events_single fuel (objects w') _ t Hu Ht).
  split; [reflexivity|]. cbn [trace emit]. now rewrite Hnow.
Qed.

Lemma map_unsubscribe_reaches_source_witness :
  ∃ w' w'',
    Observable_subscribe
      (map (fun x _ => (x * 2)%Z)
           (new_Observable (synchronous [N 1%Z] (Some (TdFunction "f")))))
      (full "o") 2 empty_world
    = Some (mkSubscriber 0 (full "o") "map", w') ∧
    Subscription_unsubscribe 2 0 w' = Some w'' ∧
    trace w'' = trace w' ++ [(0, Called "f")].
Proof.
  exact (map_unsubscribe_reaches_source Z (fun x _ => (x * 2)%Z) [N 1%Z]
           (TdFunction "f") "o" true true true 0 empty_world eq_refl).
Defined.

(** Asymmetric cleanup through [map].  When the source completes after
    [subscribe] has returned, the teardown its producer returned is invoked
    twice: once through the subscriber's [unsubscribe()], which reaches the
    upstream subscription, and once through the upstream endpoint's own.
    When the source reports an error instead, no teardown is invoked. *)
Theorem map_completion_runs_source_teardown_twice (V : Type)
    (project : V → nat → V) (script : list (Notification V)) (t : Teardown)
    (o : string) (hn he hc : bool) (err : V) (fuel : nat) (w : World V) :
  user_action t = true →
  let stream := map project (new_Observable (synchronous script (Some t))) in
  let d := mkSubscriber (next_object w) (UserObserver o hn he hc) "map" in
  let u := mkSubscriber (S (next_object w))
             (MapObserver project (next_variable w) d) "user" in
  ∃ w' w'',
    Observable_subscribe stream (UserObserver o hn he hc) (S (S fuel)) w
    = Some (d, w') ∧
    Subscriber_complete (S (S fuel)) u w' = Some w'' ∧
    trace w''
    = trace w' ++ ((fun e => (now w, e)) <$>
                     (forwarded hc (ObsComplete o)
                        ++ action_events t ++ action_events t)) ∧
    trace (Subscriber_error u err w')
    = trace w' ++ ((fun e => (now w, e)) <$> forwarded he (ObsError o err)).
Proof.
  intros Ht stream d u.
  destruct (map_subscribed project script (Some t) o hn he hc (S fuel) w)
    as (w' & Hsub & _ & Hnow & Hd & Hu).
  set (ld := next_object w) in *. set (lu := S ld) in *.
  set (ws := set_isStopped ld (set_isStopped lu w')).
  assert (Hevd : registry_events (V := V) (S (S fuel)) (objects w') ld
                 = Some (action_events t)).
  { rewrite (registry_events_linked (S fuel) (objects w') _ _ Hd).
    apply (registry_events_single fuel (objects w') _ t Hu Ht). }
  assert (Hevu : registry_events (V := V) (S (S fuel)) (objects w') lu
                 = Some (action_events t))
    by apply (registry_events_single (S fuel) (objects w') _ t Hu Ht).
  exists w', (emit (action_events t)
                (emit (forwarded hc (ObsComplete o) ++ action_events t) ws)).
  split; [exact Hsub|]. split; [|split].
  - unfold u, d. rewrite map_upstream_complete, complete_user_observer.
    rewrite registry_events_set_isStopped, Hevd.
    cbn [fmap option_fmap option_map mbind option_bind].
    rewrite unsubscribe_events, objects_emit.
    unfold ws. rewrite !registry_events_set_isStopped, Hevu. reflexivity.
  - cbn [trace emit now]. unfold ws.
    change (trace (set_isStopped ld (set_isStopped lu w'))) with (trace w').
    change (now (set_isStopped ld (set_isStopped lu w'))) with (now w').
    rewrite Hnow, !fmap_app, !app_assoc. reflexivity.
  - unfold u, d. rewrite map_upstream_error, error_user_observer.
    cbn [trace emit now].
    change (trace (set_isStopped ld (set_isStopped lu w'))) with (trace w').
    change (now (set_isStopped ld (set_isStopped lu w'))) with (now w').
    now rewrite Hnow.
Qed.

Lemma map_completion_runs_source_teardown_twice_witness :
  let d := mkSubscriber 0 (full "o") "map" in
  let u := mkSubscriber 1 (MapObserver (fun x _ => (x * 2)%Z) 0 d) "user" in
  ∃ w' w'',
    Observable_subscribe
      (map (fun x _ => (x * 2)%Z)
           (new_Observable (synchronous [N 1%Z] (Some (TdFunction "f")))))
      (full "o") 2 empty_world
    = Some (d, w') ∧
    Subscriber_complete 2 u w' = Some w'' ∧
    trace w'' = trace w' ++ [(0, ObsComplete "o"); (0, Called "f");
                             (0, Called "f")] ∧
    trace (Subscriber_error u 9%Z w') = trace w' ++ [(0, ObsError "o" 9%Z)].
Proof.
  exact (map_completion_runs_source_teardown_twice Z (fun x _ => (x * 2)%Z)
           [N 1%Z] (TdFunction "f") "o" true true true 9%Z 0 empty_world
           eq_refl).
Defined.

(** ** map after map *)

Section MapFusion.
Context {V : Type}.
Implicit Types (w : World V) (u m d : loc).

Lemma read_write_other x y (n : nat) w : x ≠ y → read y (write x n w) = read y w.
Proof.
  intros Hne. unfold read, write. simpl. now rewrite lookup_insert_ne.
Qed.

Lemma maps_running_emit (i1 i2 : loc) u m d k st t tr (evs : list (Event V)) w :
  maps_running i1 i2 u m d k st t tr w →
  maps_running i1 i2 u m d k st t (tr ++ ((fun e => (t, e)) <$> evs))
               (emit evs w).
Proof.
  unfold maps_running. cbn [trace now emit].
  intros (? & ? & ? & ? & ? & ? & ? & ? & ? & ? & ? & ? & Hnow & Htr).
  rewrite Hnow, Htr. repeat split; assumption.
Qed.

Lemma maps_running_count (i1 i2 : loc) u m d k k' st t tr w :
  maps_running i1 i2 u m d k st t tr w →
  maps_running i1 i2 u m d k' st t tr (write i2 k' (write i1 k' w)).
Proof.
  unfold maps_running.
  intros (Hi & ? & ? & ? & ? & ? & ? & ? & ? & ? & ? & ? & Hnow & Htr).
  rewrite read_write, read_write_other, read_write by auto.
  repeat split; assumption.
Qed.

Lemma maps_running_stop (i1 i2 : loc) u m d k st t tr w :
  maps_running i1 i2 u m d k st t tr w →
  maps_running i1 i2 u m d k true t tr
    (set_isStopped d (set_isStopped m (set_isStopped u w))).
Proof.
  unfold maps_running.
  intros (? & Hum & Hud & Hmd & ? & ? & ? & ? & ? & ? & ? & ? & Hnow & Htr).
  rewrite !set_isStopped_teardowns, set_isStopped_flag.
  rewrite (isStopped_set_other d m), set_isStopped_flag by auto.
  rewrite (isStopped_set_other d u), (isStopped_set_other m u),
    set_isStopped_flag by auto.
  repeat split; assumption.
Qed.

Variables (f g : V → nat → V) (o : string) (hn he hc : bool).
Variables (i1 i2 u m d : loc) (tyu tym tyd : string).

Local Abbreviation down := (mkSubscriber d (UserObserver o hn he hc) tyd).
Local Abbreviation mid := (mkSubscriber m (MapObserver g i2 down) tym).
Local Abbreviation top := (mkSubscriber u (MapObserver f i1 mid) tyu).

(** The source's script against the endpoint of the first [map]. *)
Lemma maps_script fuel (script : list (Notification V)) k st t tr w :
  maps_running i1 i2 u m d k st t tr w →
  ∃ w' k' st',
    forEach (notify top (S fuel)) script w = Some w' ∧
    maps_running i1 i2 u m d k' st' t
      (tr ++ ((fun e => (t, e)) <$>
                map_events (fun v index => g (f v index) index) o hn he hc
                           k st script)) w'.
Proof.
  revert k st tr w. induction script as [|n script IH]; intros k st tr w Hinv.
  - exists w, k, st. split; [reflexivity|].
    cbn [map_events fmap list_fmap]. now rewrite app_nil_r.
  - pose proof Hinv
      as (Hi & Hum & Hud & Hmd & Hk1 & Hk2 & Hsu & Hsm & Hsd & Htu & Htm & Htd
          & Hnow & Htr).
    destruct n as [v|err|]; cbn [forEach notify map_events mbind option_bind].
    + rewrite map_upstream_next, Hsu. destruct st.
      * apply IH, Hinv.
      * rewrite map_upstream_next.
        change (object_at (write i1 (S (read i1 w)) w) m) with (object_at w m).
        rewrite Hsm, read_write_other, Hk1, Hk2 by exact Hi.
        cbn [Subscriber_next Observer_next has_next].
        change (object_at (write i2 (S k) (write i1 (S k) w)) d)
          with (object_at w d).
        rewrite Hsd. cbn [negb]. rewrite andb_true_r.
        replace (if hn
                 then log (ObsNext o (g (f v k) k))
                        (write i2 (S k) (write i1 (S k) w))
                 else write i2 (S k) (write i1 (S k) w))
          with (emit (forwarded hn (ObsNext o (g (f v k) k)))
                  (write i2 (S k) (write i1 (S k) w)))
          by (destruct hn; [reflexivity|apply emit_nil]).
        destruct (IH (S k) false _ _
                    (maps_running_emit _ _ _ _ _ _ _ _ _
                       (forwarded hn (ObsNext o (g (f v k) k))) _
                       (maps_running_count _ _ _ _ _ k (S k) _ _ _ _ Hinv)))
          as (w' & k' & st' & Hrun & Hinv').
        exists w', k', st'. split; [exact Hrun|].
        now rewrite fmap_app, app_assoc.
    + rewrite !map_upstream_error, error_user_observer.
      destruct (IH k true _ _
                  (maps_running_emit _ _ _ _ _ _ _ _ _
                     (forwarded he (ObsError o err)) _
                     (maps_running_stop _ _ _ _ _ _ _ _ _ _ Hinv)))
        as (w' & k' & st' & Hrun & Hinv').
      exists w', k', st'. split; [exact Hrun|].
      now rewrite fmap_app, app_assoc.
    + rewrite !map_upstream_complete, complete_user_observer.
      rewrite (registry_events_empty fuel
                 (set_isStopped m (set_isStopped u w)) d)
        by (now rewrite !set_isStopped_teardowns).
      cbn [fmap option_fmap option_map mbind option_bind]. rewrite app_nil_r.
      pose proof (maps_running_emit _ _ _ _ _ _ _ _ _
                    (forwarded hc (ObsComplete o)) _
                    (maps_running_stop _ _ _ _ _ _ _ _ _ _ Hinv)) as Hinv2.
      set (w2 := emit (forwarded hc (ObsComplete o))
                   (set_isStopped d (set_isStopped m (set_isStopped u w))))
        in *.
      pose proof Hinv2
        as (_ & _ & _ & _ & _ & _ & _ & _ & _ & Htu2 & Htm2 & _).
      rewrite unsubscribe_events, (registry_events_empty fuel w2 m Htm2).
      cbn [fmap option_fmap option_map mbind option_bind]. rewrite emit_nil.
      rewrite unsubscribe_events, (registry_events_empty fuel w2 u Htu2).
      cbn [fmap option_fmap option_map mbind option_bind]. rewrite emit_nil.
      destruct (IH k true _ _ Hinv2) as (w' & k' & st' & Hrun & Hinv').
      exists w', k', st'. split; [exact Hrun|].
      now rewrite fmap_app, app_assoc.
Qed.

End MapFusion.

Section MapFusionSubscribe.
Context {V : Type}.

Lemma maps_subscribe (f g : V → nat → V) (script : list (Notification V))
    (td : TeardownLogic) (o : string) (hn he hc : bool) (fuel : nat)
    (w : World V) :
  ∃ w', Observable_subscribe
          (Observable_pipe (new_Observable (synchronous script td))
                           [map f; map g])
          (UserObserver o hn he hc) (S fuel) w
        = Some (mkSubscriber (next_object w) (UserObserver o hn he hc) "map",
                w') ∧
        trace w'
        = trace w ++ ((fun e => (now w, e)) <$>
                        map_events (fun v index => g (f v index) index)
                                   o hn he hc 0 false script).
Proof.
  set (d := next_object w). set (m := S d). set (u := S m).
  set (i2 := next_variable w). set (i1 := S i2).
  set (wa := (alloc_variable 0 (alloc_object w).2).2).
  set (wb := (alloc_variable 0 (alloc_object wa).2).2).
  set (w5 := (alloc_object wb).2).
  assert (Hinv : maps_running i1 i2 u m d 0 false (now w) (trace w) w5).
  { unfold maps_running, w5, wb, wa, object_at, read, alloc_object,
      alloc_variable.
    cbn [objects variables now trace snd next_object next_variable].
    fold d. fold i2. change (S d) with m. change (S m) with u.
    change (S i2) with i1.
    rewrite !lookup_insert_eq.
    rewrite (lookup_insert_ne _ i1 i2), lookup_insert_eq by (unfold i1; lia).
    rewrite (lookup_insert_ne _ u m), lookup_insert_eq by (unfold u; lia).
    rewrite (lookup_insert_ne _ u d), (lookup_insert_ne _ m d),
      lookup_insert_eq by (unfold u, m; lia).
    repeat split; try reflexivity; unfold u, m, i1; lia. }
  destruct (maps_script f g o hn he hc i1 i2 u m d "user" "map" "map" fuel
              script 0 false (now w) (trace w) w5 Hinv)
    as (w6 & k' & st' & Hrun & Hinv').
  destruct Hinv'
    as (_ & _ & _ & _ & _ & _ & _ & _ & _ & _ & _ & _ & Hnow & Htr).
  exists (Subscription_add d (Some (TdSubscription m))
            (Subscription_add m (Some (TdSubscription u))
               (Subscription_add u td w6))).
  split.
  - unfold Observable_pipe, pipeFromArray. cbn [fold_left].
    unfold Observable_subscribe, map, new_Observable, synchronous.
    cbn [_subscribe Observable_type].
    change (alloc_object w) with (d, (alloc_object w).2). cbn iota.
    change (alloc_variable 0 (alloc_object w).2) with (i2, wa). cbn iota.
    unfold Observable_subscribe. cbn [_subscribe Observable_type].
    change (alloc_object wa) with (m, (alloc_object wa).2). cbn iota.
    change (alloc_variable 0 (alloc_object wa).2) with (i1, wb). cbn iota.
    unfold Observable_subscribe. cbn [_subscribe Observable_type].
    change (alloc_object wb) with (u, w5). cbn iota.
    rewrite Hrun. reflexivity.
  - destruct td; exact Htr.
Qed.

End MapFusionSubscribe.

(** Two [map]s in a pipe act as one: a subscriber to
    [pipe(map(f), map(g))] sees what a subscriber to
    [map((v, i) => g(f(v, i), i))] sees; both counters advance together. *)
Theorem map_after_map_fuses (V : Type) (f g : V → nat → V)
    (script : list (Notification V)) (td : TeardownLogic) (o : string)
    (hn he hc : bool) (fuel : nat) (w : World V) :
  let source := new_Observable (synchronous script td) in
  ∃ s w1 s' w2,
    Observable_subscribe (Observable_pipe source [map f; map g])
                         (UserObserver o hn he hc) (S fuel) w
    = Some (s, w1) ∧
    Observable_subscribe (map (fun v index => g (f v index) index) source)
                         (UserObserver o hn he hc) (S fuel) w
    = Some (s', w2) ∧
    trace w1 = trace w2 ∧
    trace w1
    = trace w ++ ((fun e => (now w, e)) <$>
                    map_events (fun v index => g (f v index) index)
                               o hn he hc 0 false script).
Proof.
  intros source.
  destruct (maps_subscribe f g script td o hn he hc fuel w)
    as (w1 & Hsub1 & Htr1).
  destruct (map_subscribed (fun v index => g (f v index) index) script td
              o hn he hc fuel w) as (w2 & Hsub2 & Htr2 & _).
  eexists _, w1, _, w2. split; [exact Hsub1|]. split; [exact Hsub2|].
  split; [now rewrite Htr1, Htr2|exact Htr1].
Qed.

(** ** debounceTime: values apart, terminal events, unsubscribe *)

Section DebounceMore.
Context {V : Type}.
Implicit Types (w : World V) (time u d : loc).

Lemma debounce_upstream_error time (delay : nat) u (ds : Subscriber V)
    (ty : string) (err : V) w :
  Subscriber_error (mkSubscriber u (DebounceObserver time delay ds) ty) err w
  = Subscriber_error ds err
      (clearTimeout (read time w) (set_isStopped u w)).
Proof. reflexivity. Qed.

Lemma debounce_upstream_complete time (delay : nat) u (ds : Subscriber V)
    (ty : string) fuel w :
  Subscriber_complete fuel (mkSubscriber u (DebounceObserver time delay ds) ty) w
  = w' ← Subscriber_complete fuel ds
           (clearTimeout (read time w) (set_isStopped u w));
    Subscription_unsubscribe fuel u w'.
Proof. reflexivity. Qed.

Variables (delay : nat) (time u d : loc) (o : string) (he hc : bool).
Variables (ty ty' : string) (T fuel : nat).

Local Abbreviation ds := (mkSubscriber d (UserObserver o true he hc) ty).
Local Abbreviation up := (mkSubscriber u (DebounceObserver time delay ds) ty').

(** Further arrivals, each after the timer of the one before has fired. *)
Lemma spaced_rest (rest : list (nat * V)) h (t : nat) (v : V) w :
  pending time h (t + delay) (TimerNext ds v) w →
  now w = t →
  isStopped (object_at w u) = false →
  isStopped (object_at w d) = false →
  spaced delay t rest →
  (List.last rest (t, v)).1 + delay ≤ T →
  ∃ w', calls (S fuel) (feed up rest ++ [Wait T]) w = Some w' ∧
        trace w' = trace w ++ each_delayed o delay ((t, v) :: rest) ∧
        timers w' = [].
Proof.
  revert h t v w.
  induction rest as [|[t' v'] rest IH]; intros h t v w Hpend Hnow Hu Hd Hsp HT.
  - cbn [List.last fst snd] in *.
    destruct (wait_past_due fuel time h (t + delay) d o true he hc ty v T w)
      as (w' & Hrun & Htr & Htm & _); auto; [lia|].
    exists w'. unfold calls. cbn [feed flat_map app forEach call].
    rewrite Hrun. now split.
  - destruct Hsp as (Hle & Hsp). rewrite last_cons in *.
    unfold calls. cbn [feed flat_map app forEach call].
    destruct (wait_past_due fuel time h (t + delay) d o true he hc ty v t' w)
      as (w1 & Hrun1 & Htr1 & Htm1 & Hnow1 & Hobj1 & Hnh1); auto; [lia|].
    rewrite Hrun1. cbn [mbind option_bind].
    destruct (debounce_next time delay u ds ty' v' w1)
      as (Hp2 & Hn2 & Ht2 & Ho2).
    { unfold object_at. now rewrite Hobj1. }
    { destruct Hpend as (_ & _ & ? & ?). lia. }
    { now left. }
    set (w2 := Subscriber_next up v' w1) in *.
    destruct (IH (next_handle w1) t' v' w2) as (w' & Hrun & Htr & Htm); auto.
    + now rewrite <- Hnow1.
    + lia.
    + unfold object_at. now rewrite Ho2, Hobj1.
    + unfold object_at. now rewrite Ho2, Hobj1.
    + exists w'. split; [exact Hrun|]. split; [|exact Htm].
      rewrite Htr, Ht2, Htr1. cbn [each_delayed fmap list_fmap forwarded].
      now rewrite <- app_assoc.
Qed.

Lemma spaced_from_idle (first : nat * V) (rest : list (nat * V)) w :
  timers w = [] →
  0 < next_handle w →
  isStopped (object_at w u) = false →
  isStopped (object_at w d) = false →
  now w ≤ first.1 →
  spaced delay first.1 rest →
  (List.last rest first).1 + delay ≤ T →
  ∃ w', calls (S fuel) (feed up (first :: rest) ++ [Wait T]) w = Some w' ∧
        trace w' = trace w ++ each_delayed o delay (first :: rest) ∧
        timers w' = [].
Proof.
  destruct first as [t0 v0]. cbn [fst].
  intros Htm Hpos Hu Hd Hnow Hsp HT.
  unfold calls. cbn [feed flat_map app forEach call].
  rewrite (wait_idle (S fuel) t0 w Htm). cbn [mbind option_bind].
  replace (now w `max` t0) with t0 by lia.
  set (w1 := set_now t0 w).
  destruct (debounce_next time delay u ds ty' v0 w1) as (Hp2 & Hn2 & Ht2 & Ho2).
  { exact Hu. }
  { exact Hpos. }
  { now left. }
  set (w2 := Subscriber_next up v0 w1) in *.
  destruct (spaced_rest rest (next_handle w1) t0 v0 w2)
    as (w' & Hrun & Htr & Htm'); auto.
  - unfold object_at. now rewrite Ho2.
  - unfold object_at. now rewrite Ho2.
  - exists w'. split; [exact Hrun|]. split; [|exact Htm'].
    now rewrite Htr, Ht2.
Qed.

End DebounceMore.

Lemma apart_spaced {V : Type} (delay prev : nat) (arrivals : list (nat * V)) :
  apart delay prev arrivals → spaced delay prev arrivals.
Proof.
  revert prev. induction arrivals as [|[t v] arrivals IH]; intros prev;
    [easy|].
  cbn [apart spaced]. intros (Hlt & Hrest). split; [lia|now apply IH].
Qed.

(** Values that arrive more than [delay] apart all pass
    [debounceTime(delay)], for a positive [delay]: each is emitted, in
    order, [delay] after its arrival.  Through a source driven by timers:
    values at 0, 101 and 250 pass [debounceTime(100)]; a value that arrives
    exactly [delay] after the one before supersedes it, because the
    source's timer, registered first, runs before the operator's. *)
Theorem debounce_delivers_values_apart :
  (∀ (V : Type) (delay : nat) (time u d : loc) (o : string) (he hc : bool)
     (ty ty' : string) (first : nat * V) (rest : list (nat * V))
     (T fuel : nat) (w : World V),
      let ds := mkSubscriber d (UserObserver o true he hc) ty in
      let up := mkSubscriber u (DebounceObserver time delay ds) ty' in
      0 < delay →
      timers w = [] →
      0 < next_handle w →
      isStopped (object_at w u) = false →
      isStopped (object_at w d) = false →
      now w ≤ first.1 →
      apart delay first.1 rest →
      (List.last rest first).1 + delay ≤ T →
      ∃ w', calls (S fuel) (feed up (first :: rest) ++ [Wait T]) w = Some w' ∧
            trace w' = trace w ++ each_delayed o delay (first :: rest) ∧
            timers w' = []) ∧
  (let source := new_Observable
                   (timed [(0, 1%Z); (101, 2%Z); (250, 3%Z)] None) in
   w ← snd <$> Observable_subscribe (Observable_pipe source [debounce100])
                 (full "o") 1 debounce100_world;
   trace <$> run_until 8 1000 w)
  = Some [(100, ObsNext "o" 1%Z); (201, ObsNext "o" 2%Z);
          (350, ObsNext "o" 3%Z)] ∧
  (let source := new_Observable (timed [(0, 1%Z); (100, 2%Z)] None) in
   w ← snd <$> Observable_subscribe (Observable_pipe source [debounce100])
                 (full "o") 1 debounce100_world;
   trace <$> run_until 8 1000 w)
  = Some [(200, ObsNext "o" 2%Z)].
Proof.
  split; [|split; vm_compute; reflexivity].
  intros V delay time u d o he hc ty ty' first rest T fuel w ds up
         _ Htm Hpos Hu Hd Hnow Hap HT.
  apply spaced_from_idle; auto using apart_spaced.
Qed.

Lemma debounce_delivers_values_apart_witness :
  ∃ w', calls 1 (feed debounced_up [(0, 1%Z); (101, 2%Z); (250, 3%Z)]
                   ++ [Wait 1000]) debounced_world = Some w' ∧
        trace w' = [(100, ObsNext "o" 1%Z); (201, ObsNext "o" 2%Z);
                    (350, ObsNext "o" 3%Z)] ∧
        timers w' = [].
Proof.
  apply (proj1 debounce_delivers_values_apart Z 100 0 1 0 "o" true true
           "debounceTime" "user" (0, 1%Z) [(101, 2%Z); (250, 3%Z)] 1000 0
           debounced_world).
  - lia.
  - reflexivity.
  - vm_compute. lia.
  - reflexivity.
  - reflexivity.
  - vm_compute. lia.
  - cbn [apart fst]. lia.
  - cbn [List.last fst]. lia.
Defined.

Section DebounceTerminal.
Context {V : Type}.
Implicit Types (w : World V) (time u d : loc).

Lemma unsubscribe_emitted fuel (l : loc) w w1 :
  Subscription_unsubscribe fuel l w = Some w1 →
  ∃ evs, registry_events fuel (objects w) l = Some evs ∧ w1 = emit evs w ∧
         drop (length (trace w)) (trace w1) = (fun e => (now w, e)) <$> evs.
Proof.
  rewrite unsubscribe_events.
  destruct (registry_events fuel (objects w) l) as [evs|]; [|discriminate].
  intros [= <-]. exists evs. split; [reflexivity|]. split; [reflexivity|].
  cbn [trace emit]. apply drop_app_length.
Qed.

End DebounceTerminal.

(** [error()] and [complete()] from upstream cancel the pending timer of
    [debounceTime]: the value that was waiting is dropped, not flushed; the
    observer gets the terminal event only, and nothing comes later. *)
Theorem debounce_terminal_drops_pending_value (V : Type) (delay : nat)
    (time u d : loc) (o : string) (hn he hc : bool) (ty ty' : string)
    (h t : nat) (v err : V) (fuel : nat) (w wd wu : World V) :
  let ds := mkSubscriber d (UserObserver o hn he hc) ty in
  let up := mkSubscriber u (DebounceObserver time delay ds) ty' in
  let after := fun w' : World V => drop (length (trace w)) (trace w') in
  pending time h t (TimerNext ds v) w →
  Subscription_unsubscribe fuel d w = Some wd →
  Subscription_unsubscribe fuel u w = Some wu →
  (timers (Subscriber_error up err w) = [] ∧
   trace (Subscriber_error up err w)
   = trace w ++ ((fun e => (now w, e)) <$> forwarded he (ObsError o err)) ∧
   ∀ fuel' T,
     trace <$> run_until fuel' T (Subscriber_error up err w)
     = Some (trace (Subscriber_error up err w))) ∧
  (∃ w1, Subscriber_complete fuel up w = Some w1 ∧
         timers w1 = [] ∧
         trace w1
         = trace w ++ ((fun e => (now w, e)) <$> forwarded hc (ObsComplete o))
             ++ after wd ++ after wu ∧
         ∀ fuel' T, trace <$> run_until fuel' T w1 = Some (trace w1)).
Proof.
  intros ds up after Hpend Hd Hu.
  pose proof Hpend as (Htm & Hh & _).
  assert (Hclear : ∀ evs evs' : list (Event V),
            timers (emit evs' (emit evs
                      (set_isStopped d
                         (clearTimeout (read time w) (set_isStopped u w)))))
            = []).
  { intros evs evs'. cbn [timers emit set_isStopped set_object].
    rewrite Hh. apply (clearTimeout_pending h t (TimerNext ds v)).
    exact Htm. }
  split.
  - unfold up, ds. rewrite debounce_upstream_error, error_user_observer.
    split; [|split].
    + rewrite <- (emit_nil (emit _ _)). apply Hclear.
    + reflexivity.
    + intros fuel' T. rewrite wait_idle; [reflexivity|].
      rewrite <- (emit_nil (emit _ _)). apply Hclear.
  - destruct (unsubscribe_emitted fuel d w wd Hd) as (Ed & HEd & _ & Hdd).
    destruct (unsubscribe_emitted fuel u w wu Hu) as (Eu & HEu & _ & Hdu).
    unfold after. rewrite Hdd, Hdu.
    exists (emit Eu (emit (forwarded hc (ObsComplete o) ++ Ed)
                       (set_isStopped d
                          (clearTimeout (read time w) (set_isStopped u w))))).
    split; [|split; [apply Hclear|split]].
    + unfold up, ds.
      rewrite debounce_upstream_complete, complete_user_observer.
      change (objects (clearTimeout (read time w) (set_isStopped u w)))
        with (objects (set_isStopped u w)).
      rewrite registry_events_set_isStopped, HEd.
      cbn [fmap option_fmap option_map mbind option_bind].
      rewrite unsubscribe_events, objects_emit.
      change (objects (set_isStopped d
                         (clearTimeout (read time w) (set_isStopped u w))))
        with (objects (set_isStopped d (set_isStopped u w))).
      now rewrite !registry_events_set_isStopped, HEu.
    + cbn [trace emit now set_isStopped set_object clearTimeout].
      now rewrite !fmap_app, !app_assoc.
    + intros fuel' T. rewrite wait_idle; [reflexivity|apply Hclear].
Qed.

(** On the endpoints of [debounced_world]: 5 arrives at time 0, the source
    fails at time 40; only the error reaches the observer. *)
Lemma debounce_terminal_drops_pending_value_witness :
  let w := default debounced_world
             (calls 1 [CallNext debounced_up 5%Z; Wait 40] debounced_world) in
  trace <$> run_until 1 1000 (Subscriber_error debounced_up 7%Z w)
  = Some [(40, ObsError "o" 7%Z)] ∧
  ∃ w1, Subscriber_complete 2 debounced_up w = Some w1 ∧
        trace <$> run_until 1 1000 w1 = Some [(40, ObsComplete "o")].
Proof.
  destruct (debounce_terminal_drops_pending_value Z 100 0 1 0 "o"
              true true true "debounceTime" "user" 1 100 5%Z 7%Z 2
              (default debounced_world
                 (calls 1 [CallNext debounced_up 5%Z; Wait 40] debounced_world))
              (default debounced_world
                 (Subscription_unsubscribe 2 0
                    (default debounced_world
                       (calls 1 [CallNext debounced_up 5%Z; Wait 40]
                              debounced_world))))
              (default debounced_world
                 (Subscription_unsubscribe 2 1
                    (default debounced_world
                       (calls 1 [CallNext debounced_up 5%Z; Wait 40]
                              debounced_world)))))
    as ((_ & Htre & Hlater) & (w1 & Hc & _ & Htrc & Hlater')).
  - repeat split; vm_compute; lia.
  - reflexivity.
  - reflexivity.
  - split.
    + rewrite Hlater, Htre. reflexivity.
    + exists w1. split; [exact Hc|]. rewrite Hlater', Htrc. reflexivity.
Defined.

(** [unsubscribe()] on the subscription of a debounced stream does not
    cancel the pending timer: the value that was waiting is still handed to
    the observer when the timer fires. *)
Theorem debounce_unsubscribe_keeps_timer (V : Type) (time d : loc)
    (o : string) (he hc : bool) (ty : string) (h t : nat) (v : V)
    (fuel fuel' T : nat) (w w1 : World V) :
  let ds := mkSubscriber d (UserObserver o true he hc) ty in
  pending time h t (TimerNext ds v) w →
  isStopped (object_at w d) = false →
  now w ≤ t → t ≤ T →
  Subscription_unsubscribe fuel d w = Some w1 →
  ∃ w2, run_until (S fuel') T w1 = Some w2 ∧
        trace w2 = trace w1 ++ [(t, ObsNext o v)].
Proof.
  intros ds Hpend Hd Hnow HT Hunsub.
  destruct (unsubscribe_emitted fuel d w w1 Hunsub) as (evs & _ & -> & _).
  destruct (wait_past_due fuel' time h t d o true he hc ty v T (emit evs w))
    as (w2 & Hrun & Htr & _); auto.
  exists w2. split; [exact Hrun|exact Htr].
Qed.

Lemma debounce_unsubscribe_keeps_timer_witness :
  let w := Subscriber_next debounced_up 5%Z debounced_world in
  let w1 := default w (Subscription_unsubscribe 2 0 w) in
  ∃ w2, run_until 1 1000 w1 = Some w2 ∧
        trace w2 = [(100, ObsNext "o" 5%Z)].
Proof.
  apply (debounce_unsubscribe_keeps_timer Z 0 0 "o" true true "debounceTime"
           1 100 5%Z 2 0 1000 (Subscriber_next debounced_up 5%Z debounced_world)).
  - repeat split; vm_compute; lia.
  - reflexivity.
  - vm_compute. lia.
  - lia.
  - reflexivity.
Defined.

(** ** A timer-driven source through map *)

Section TimedSource.
Context {V : Type}.
Implicit Types (w : World V).

(** The world after subscribing to [map(project)] of a source that only
    schedules one timer. *)
Lemma timed_map_subscribed (project : V → nat → V) (t : nat) (v : V)
    (td : TeardownLogic) (o : string) (hn he hc : bool) (fuel : nat) w :
  let d := next_object w in
  let u := S (next_object w) in
  let i := next_variable w in
  let dn := mkSubscriber d (UserObserver o hn he hc) "map" in
  let up := mkSubscriber u (MapObserver project i dn) "user" in
  ∃ w', Observable_subscribe
          (Observable_pipe (new_Observable (timed [(t, v)] td)) [map project])
          (UserObserver o hn he hc) fuel w
        = Some (dn, w') ∧
        timers w'
        = timers w ++ [mkTimer (next_handle w) (now w + t) (TimerNext up v)] ∧
        isStopped (object_at w' u) = false ∧
        isStopped (object_at w' d) = false ∧
        read i w' = 0 ∧ now w' = now w ∧ trace w' = trace w.
Proof.
  intros d u i dn up.
  set (w3 := (alloc_object (alloc_variable 0 (alloc_object w).2).2).2).
  set (w4 := (setTimeout (TimerNext up v) t w3).2).
  exists (Subscription_add d (Some (TdSubscription u)) (Subscription_add u td w4)).
  split.
  - unfold Observable_pipe, pipeFromArray, Observable_subscribe, map,
      new_Observable, timed.
    cbn [_subscribe Observable_type].
    change (alloc_object w) with (d, (alloc_object w).2). cbn iota.
    change (alloc_variable 0 (alloc_object w).2)
      with (i, (alloc_variable 0 (alloc_object w).2).2). cbn iota.
    unfold Observable_subscribe. cbn [_subscribe Observable_type].
    change (alloc_object (alloc_variable 0 (alloc_object w).2).2) with (u, w3).
    cbn iota. cbn [fold_left mbind option_bind]. reflexivity.
  - rewrite !isStopped_add.
    assert (Hu : isStopped (object_at w4 u) = false).
    { unfold object_at, w4, w3, setTimeout, alloc_object, alloc_variable.
      cbn [objects snd next_object]. fold d. change (S d) with u.
      now rewrite lookup_insert_eq. }
    assert (Hd : isStopped (object_at w4 d) = false).
    { unfold object_at, w4, w3, setTimeout, alloc_object, alloc_variable.
      cbn [objects snd next_object]. fold d. change (S d) with u.
      rewrite lookup_insert_ne, lookup_insert_eq by (unfold u; lia).
      reflexivity. }
    assert (Hi : read i w4 = 0).
    { unfold read, w4, w3, setTimeout, alloc_object, alloc_variable.
      cbn [variables snd next_variable]. fold i.
      now rewrite lookup_insert_eq. }
    destruct td as [td|]; cbn [Subscription_add]; now repeat split.
Qed.

End TimedSource.

(** A source that hands its value to the observer from a timer, as in the
    demonstration script, piped through [map(project)]: subscribing
    delivers nothing; when the timer is due the observer receives
    [project(v, 0)], and the source's teardown is not invoked. *)
Theorem timed_source_through_map (V : Type) (project : V → nat → V)
    (t : nat) (v : V) (td : TeardownLogic) (o : string) (hn he hc : bool)
    (fuel fuel' T : nat) (w : World V) :
  timers w = [] →
  now w + t ≤ T →
  let stream :=
    Observable_pipe (new_Observable (timed [(t, v)] td)) [map project] in
  ∃ s w' w'',
    Observable_subscribe stream (UserObserver o hn he hc) fuel w = Some (s, w') ∧
    trace w' = trace w ∧
    run_until (S fuel') T w' = Some w'' ∧
    trace w''
    = trace w ++ ((fun e => (now w + t, e)) <$>
                    forwarded hn (ObsNext o (project v 0))).
Proof.
  intros Htm HT stream.
  destruct (timed_map_subscribed project t v td o hn he hc fuel w)
    as (w' & Hsub & Htm' & Hu & Hd & Hi & Hnow & Htr).
  rewrite Htm in Htm'. cbn [app] in Htm'.
  set (d := next_object w) in *. set (u := S d) in *.
  set (i := next_variable w) in *.
  set (dn := mkSubscriber d (UserObserver o hn he hc) "map") in *.
  set (up := mkSubscriber u (MapObserver project i dn) "user") in *.
  set (tm := mkTimer (next_handle w) (now w + t) (TimerNext up v)) in *.
  assert (Hnext : next_timer T w' = Some tm).
  { unfold next_timer. rewrite Htm'. cbn [earliest].
    rewrite decide_True; [reflexivity|]. unfold tm. cbn [due]. lia. }
  set (w1 := set_now (now w' `max` due tm) (clearTimeout (handle tm) w')).
  set (w2 := emit (forwarded hn (ObsNext o (project v 0))) (write i 1 w1)).
  assert (Hfire : fire tm w' = w2).
  { unfold fire. fold w1. cbn [callback tm]. unfold up.
    rewrite map_upstream_next.
    change (object_at w1 u) with (object_at w' u). rewrite Hu.
    change (read i w1) with (read i w'). rewrite Hi. unfold dn.
    cbn [Subscriber_next Observer_next has_next].
    change (object_at (write i 1 w1) d) with (object_at w' d). rewrite Hd.
    cbn [negb]. rewrite andb_true_r. unfold w2.
    destruct hn; [reflexivity|]. cbn [forwarded]. now rewrite emit_nil. }
  assert (Htm2 : timers w2 = []).
  { unfold w2, w1. cbn [timers emit write set_now].
    apply (clearTimeout_pending _ (now w + t) (TimerNext up v)). exact Htm'. }
  exists dn, w', (set_now (now w2 `max` T) w2).
  split; [exact Hsub|]. split; [exact Htr|]. split.
  - cbn [run_until]. rewrite Hnext, Hfire. now apply wait_idle.
  - cbn [trace set_now]. unfold w2, w1.
    cbn [trace now emit write set_now clearTimeout due tm].
    rewrite Htr, Hnow. replace (now w `max` (now w + t)) with (now w + t) by lia.
    reflexivity.
Qed.

(** The demonstration script: at 3000 ms the console observer gets 2. *)
Lemma timed_source_through_map_witness :
  ∃ s w' w'',
    Observable_subscribe demo_stream demo_observer 1 empty_world
    = Some (s, w') ∧
    trace w' = [] ∧
    run_until 1 5000 w' = Some w'' ∧
    trace w'' = [(3000, ObsNext "console" 2%Z)].
Proof.
  apply (timed_source_through_map Z (fun i _ => (i + 1)%Z) 3000 1%Z
           (Some (TdUnsubscribable "done")) "console" true false true 1 0 5000
           empty_world).
  - reflexivity.
  - vm_compute. lia.
Defined.

(** ** debounceTime of a source that completes at once *)

Section DebounceSynchronous.
Context {V : Type}.
Implicit Types (w : World V) (time u d : loc).

Lemma debounce_values (delay : nat) time u (ds : Subscriber V) (ty : string)
    fuel (values : list V) w :
  isStopped (object_at w u) = false →
  0 < next_handle w →
  (timers w = [] ∨ ∃ h t cb, pending time h t cb w) →
  ∃ w', forEach (notify (mkSubscriber u (DebounceObserver time delay ds) ty)
                        fuel) (N <$> values) w = Some w' ∧
        (timers w' = [] ∨ ∃ h t cb, pending time h t cb w') ∧
        trace w' = trace w ∧ objects w' = objects w ∧ now w' = now w.
Proof.
  revert w. induction values as [|v values IH]; intros w Hu Hpos Hstate.
  - exists w. now repeat split.
  - cbn [fmap list_fmap forEach notify mbind option_bind].
    destruct (debounce_next time delay u ds ty v w Hu Hpos Hstate)
      as (Hp & Hn & Ht & Ho).
    set (w1 := Subscriber_next _ v w) in *.
    destruct (IH w1) as (w' & Hrun & Hst' & Htr' & Hobj' & Hnow').
    + unfold object_at. now rewrite Ho.
    + destruct Hp as (_ & _ & ? & ?). lia.
    + right. eauto.
    + exists w'. split; [exact Hrun|]. split; [exact Hst'|].
      rewrite Htr', Hobj', Hnow'. now repeat split.
Qed.

Lemma timers_add (l : loc) (td : TeardownLogic) w :
  timers (Subscription_add l td w) = timers w ∧
  trace (Subscription_add l td w) = trace w.
Proof. now destruct td. Qed.

End DebounceSynchronous.

(** A source that emits its values on subscription and completes at once
    gets nothing through [debounceTime]: [complete()] cancels the timer of
    the last value, so the observer sees the completion only and no timer is
    left to fire. *)
Theorem debounce_of_completed_source_emits_nothing (V : Type) (delay : nat)
    (w0 : World V) (values : list V) (td : TeardownLogic) (o : string)
    (hn he hc : bool) (fuel : nat) (w : World V) :
  let op := (debounceTime delay w0).1 in
  let source := new_Observable (synchronous ((N <$> values) ++ [C]) td) in
  timers w = [] →
  0 < next_handle w →
  ∃ s w',
    Observable_subscribe (Observable_pipe source [op])
                         (UserObserver o hn he hc) (S fuel) w
    = Some (s, w') ∧
    trace w' = trace w ++ ((fun e => (now w, e)) <$>
                             forwarded hc (ObsComplete o)) ∧
    timers w' = [].
Proof.
  intros op source Htm Hpos.
  set (time := next_variable w0).
  set (d := next_object w). set (u := S d).
  set (dn := mkSubscriber d (UserObserver (V := V) o hn he hc) "debounceTime").
  set (up := mkSubscriber u (DebounceObserver time delay dn) "user").
  set (w2 := (alloc_object (alloc_object w).2).2).
  assert (Hu2 : object_at w2 u = new_object).
  { unfold object_at, w2, alloc_object. cbn [objects snd next_object].
    fold d. change (S d) with u. now rewrite lookup_insert_eq. }
  assert (Hd2 : object_at w2 d = new_object).
  { unfold object_at, w2, alloc_object. cbn [objects snd next_object].
    fold d. change (S d) with u.
    now rewrite lookup_insert_ne, lookup_insert_eq by (unfold u; lia). }
  destruct (debounce_values delay time u dn "user" (S fuel) values w2)
    as (w3 & Hrun & Hstate & Htr3 & Hobj3 & Hnow3).
  { now rewrite Hu2. }
  { exact Hpos. }
  { now left. }
  assert (Hu3 : _teardowns (object_at w3 u) = [])
    by (unfold object_at in *; now rewrite Hobj3, Hu2).
  assert (Hd3 : _teardowns (object_at w3 d) = [])
    by (unfold object_at in *; now rewrite Hobj3, Hd2).
  set (wc := emit (forwarded hc (ObsComplete o))
               (set_isStopped d
                  (clearTimeout (read time w3) (set_isStopped u w3)))).
  assert (Hcomplete : Subscriber_complete (S fuel) up w3 = Some wc).
  { unfold up, dn.
    rewrite debounce_upstream_complete, complete_user_observer.
    change (objects (clearTimeout (read time w3) (set_isStopped u w3)))
      with (objects (set_isStopped u w3)).
    rewrite (registry_events_empty fuel (set_isStopped u w3) d)
      by (now rewrite set_isStopped_teardowns).
    cbn [fmap option_fmap option_map mbind option_bind]. rewrite app_nil_r.
    fold wc. rewrite unsubscribe_events.
    rewrite (registry_events_empty fuel wc u).
    - cbn [fmap option_fmap option_map]. now rewrite emit_nil.
    - unfold wc.
      change (object_at (emit (forwarded hc (ObsComplete o))
                (set_isStopped d
                   (clearTimeout (read time w3) (set_isStopped u w3)))) u)
        with (object_at (set_isStopped d (set_isStopped u w3)) u).
      now rewrite !set_isStopped_teardowns. }
  assert (Htmc : timers wc = []).
  { unfold wc. cbn [timers emit set_isStopped set_object].
    destruct Hstate as [Hidle|(h & t & cb & Hp)].
    - now apply clearTimeout_idle.
    - pose proof Hp as (Htm3 & Hh & _). rewrite Hh.
      now apply (clearTimeout_pending h t cb). }
  exists dn, (Subscription_add d (Some (TdSubscription u))
                (Subscription_add u td wc)).
  split; [|split].
  - unfold Observable_pipe, pipeFromArray, op, debounceTime.
    cbn [fst alloc_variable]. fold time.
    unfold Observable_subscribe, source, new_Observable, synchronous.
    cbn [_subscribe Observable_type].
    change (alloc_object w) with (d, (alloc_object w).2). cbn iota.
    unfold Observable_subscribe. cbn [_subscribe Observable_type].
    change (alloc_object (alloc_object w).2) with (u, w2). cbn iota.
    rewrite forEach_app. unfold up, dn in Hrun, Hcomplete. rewrite Hrun.
    cbn [mbind option_bind forEach notify]. rewrite Hcomplete.
    reflexivity.
  - rewrite !(proj2 (timers_add _ _ _)). unfold wc.
    cbn [trace emit now set_isStopped set_object clearTimeout].
    now rewrite Htr3, Hnow3.
  - now rewrite !(proj1 (timers_add _ _ _)).
Qed.

Lemma debounce_of_completed_source_emits_nothing_witness :
  ∃ s w',
    Observable_subscribe
      (Observable_pipe
         (new_Observable (synchronous [N 1%Z; N 2%Z; N 3%Z; C] None))
         [debounce100])
      (full "o") 1 debounce100_world
    = Some (s, w') ∧
    trace w' = [(0, ObsComplete "o")] ∧
    timers w' = [].
Proof.
  apply (debounce_of_completed_source_emits_nothing Z 100 empty_world
           [1%Z; 2%Z; 3%Z] None "o" true true true 0 debounce100_world).
  - reflexivity.
  - vm_compute. lia.
Defined.

(** ** map: two activations alive at once *)

Section TwoActivations.
Context {V : Type}.
Implicit Types (w : World V) (l : loc).

Lemma object_at_add_other l l' (td : TeardownLogic) w :
  l ≠ l' → object_at (Subscription_add l td w) l' = object_at w l'.
Proof.
  intros Hne. destruct td as [t|]; [|reflexivity].
  cbn [Subscription_add]. now rewrite object_at_set_object, decide_False.
Qed.

(** One activation of [map(project)] over a source that schedules one
    timer: what it allocates and what it leaves alone. *)
Lemma timed_map_activation (project : V → nat → V) (t : nat) (v : V)
    (td : TeardownLogic) (o : string) (hn he hc : bool) (fuel : nat) w :
  let d := next_object w in
  let u := S (next_object w) in
  let i := next_variable w in
  let dn := mkSubscriber d (UserObserver o hn he hc) "map" in
  let up := mkSubscriber u (MapObserver project i dn) "user" in
  ∃ w', Observable_subscribe
          (map project (new_Observable (timed [(t, v)] td)))
          (UserObserver o hn he hc) fuel w
        = Some (dn, w') ∧
        timers w'
        = timers w ++ [mkTimer (next_handle w) (now w + t) (TimerNext up v)] ∧
        next_object w' = S (S d) ∧ next_variable w' = S i ∧
        next_handle w' = S (next_handle w) ∧
        now w' = now w ∧ trace w' = trace w ∧
        isStopped (object_at w' u) = false ∧
        isStopped (object_at w' d) = false ∧
        read i w' = 0 ∧
        (∀ l, l ≠ d → l ≠ u → object_at w' l = object_at w l) ∧
        (∀ x, x ≠ i → read x w' = read x w).
Proof.
  intros d u i dn up.
  set (w3 := (alloc_object (alloc_variable 0 (alloc_object w).2).2).2).
  set (w4 := (setTimeout (TimerNext up v) t w3).2).
  exists (Subscription_add d (Some (TdSubscription u)) (Subscription_add u td w4)).
  split.
  { unfold Observable_subscribe, map, new_Observable, timed.
    cbn [_subscribe Observable_type].
    change (alloc_object w) with (d, (alloc_object w).2). cbn iota.
    change (alloc_variable 0 (alloc_object w).2)
      with (i, (alloc_variable 0 (alloc_object w).2).2). cbn iota.
    unfold Observable_subscribe. cbn [_subscribe Observable_type].
    change (alloc_object (alloc_variable 0 (alloc_object w).2).2) with (u, w3).
    cbn iota. cbn [fold_left mbind option_bind]. reflexivity. }
  assert (Hu : isStopped (object_at w4 u) = false).
  { unfold object_at, w4, w3, setTimeout, alloc_object, alloc_variable.
    cbn [objects snd next_object]. fold d. change (S d) with u.
    now rewrite lookup_insert_eq. }
  assert (Hd : isStopped (object_at w4 d) = false).
  { unfold object_at, w4, w3, setTimeout, alloc_object, alloc_variable.
    cbn [objects snd next_object]. fold d. change (S d) with u.
    rewrite lookup_insert_ne, lookup_insert_eq by (unfold u; lia).
    reflexivity. }
  assert (Hi : read i w4 = 0).
  { unfold read, w4, w3, setTimeout, alloc_object, alloc_variable.
    cbn [variables snd next_variable]. fold i.
    now rewrite lookup_insert_eq. }
  assert (Hframe : ∀ l, l ≠ d → l ≠ u → object_at w4 l = object_at w l).
  { intros l Hld Hlu.
    unfold object_at, w4, w3, setTimeout, alloc_object, alloc_variable.
    cbn [objects snd next_object]. fold d. change (S d) with u.
    now rewrite !lookup_insert_ne by auto. }
  assert (Hreads : ∀ x, x ≠ i → read x w4 = read x w).
  { intros x Hx.
    unfold read, w4, w3, setTimeout, alloc_object, alloc_variable.
    cbn [variables snd next_variable]. fold i.
    now rewrite lookup_insert_ne by auto. }
  rewrite !isStopped_add.
  split; [now destruct td|]. split; [now destruct td|].
  split; [now destruct td|]. split; [now destruct td|].
  split; [now destruct td|]. split; [now destruct td|].
  split; [exact Hu|]. split; [exact Hd|].
  split; [now destruct td|]. split.
  - intros l Hld Hlu. rewrite !object_at_add_other by auto. now apply Hframe.
  - intros x Hx. rewrite <- (Hreads x Hx). now destruct td.
Qed.

Variables (project : V → nat → V) (oA oB : string).
Variables (hnA heA hcA hnB heB hcB : bool).
Variables (iA iB lA lB mA mB : loc) (tyA tyB tyA' tyB' : string).

Local Abbreviation downA := (mkSubscriber mA (UserObserver oA hnA heA hcA) tyA).
Local Abbreviation downB := (mkSubscriber mB (UserObserver oB hnB heB hcB) tyB).
Local Abbreviation upA := (mkSubscriber lA (MapObserver project iA downA) tyA').
Local Abbreviation upB := (mkSubscriber lB (MapObserver project iB downB) tyB').

(** Values handed in any order to the upstream endpoints of two live
    activations. *)
Lemma turns_count_apart fuel (turns : list (bool * V)) kA kB t tr w :
  both_running iA iB lA lB mA mB kA kB t tr w →
  ∃ w', calls fuel (hand_over upA upB turns) w = Some w' ∧
        trace w' = tr ++ ((fun e => (t, e)) <$>
                            counted_apart project oA oB hnA hnB kA kB turns).
Proof.
  revert kA kB tr w.
  induction turns as [|[first v] turns IH]; intros kA kB tr w Hinv.
  - exists w. split; [reflexivity|]. cbn [counted_apart fmap list_fmap].
    rewrite app_nil_r. now destruct Hinv as (_ & _ & _ & _ & _ & _ & _ & _ & ?).
  - pose proof Hinv as (Hi & HkA & HkB & HuA & HdA & HuB & HdB & Hnow & Htr).
    unfold calls, hand_over. cbn [fmap list_fmap forEach call fst snd].
    cbn [mbind option_bind counted_apart]. destruct first.
    + rewrite map_upstream_next, HuA.
      cbn [Subscriber_next Observer_next has_next].
      change (object_at (write iA (S (read iA w)) w) mA) with (object_at w mA).
      rewrite HdA, HkA. cbn [negb]. rewrite andb_true_r.
      replace (if hnA then log (ObsNext oA (project v kA)) (write iA (S kA) w)
               else write iA (S kA) w)
        with (emit (forwarded hnA (ObsNext oA (project v kA)))
                (write iA (S kA) w))
        by (destruct hnA; [reflexivity|apply emit_nil]).
      destruct (IH (S kA) kB
                  (tr ++ ((fun e => (t, e)) <$>
                            forwarded hnA (ObsNext oA (project v kA))))
                  (emit (forwarded hnA (ObsNext oA (project v kA)))
                     (write iA (S kA) w))) as (w' & Hrun & Htr').
      { unfold both_running. cbn [trace now emit].
        change (read iA (emit (forwarded hnA (ObsNext oA (project v kA)))
                           (write iA (S kA) w)))
          with (read iA (write iA (S kA) w)).
        change (read iB (emit (forwarded hnA (ObsNext oA (project v kA)))
                           (write iA (S kA) w)))
          with (read iB (write iA (S kA) w)).
        rewrite read_write, read_write_other by exact Hi.
        change (now (write iA (S kA) w)) with (now w).
        change (trace (write iA (S kA) w)) with (trace w).
        rewrite Hnow, Htr. repeat split; assumption. }
      exists w'. split; [exact Hrun|].
      now rewrite Htr', fmap_app, app_assoc.
    + rewrite map_upstream_next, HuB.
      cbn [Subscriber_next Observer_next has_next].
      change (object_at (write iB (S (read iB w)) w) mB) with (object_at w mB).
      rewrite HdB, HkB. cbn [negb]. rewrite andb_true_r.
      replace (if hnB then log (ObsNext oB (project v kB)) (write iB (S kB) w)
               else write iB (S kB) w)
        with (emit (forwarded hnB (ObsNext oB (project v kB)))
                (write iB (S kB) w))
        by (destruct hnB; [reflexivity|apply emit_nil]).
      destruct (IH kA (S kB)
                  (tr ++ ((fun e => (t, e)) <$>
                            forwarded hnB (ObsNext oB (project v kB))))
                  (emit (forwarded hnB (ObsNext oB (project v kB)))
                     (write iB (S kB) w))) as (w' & Hrun & Htr').
      { unfold both_running. cbn [trace now emit].
        change (read iA (emit (forwarded hnB (ObsNext oB (project v kB)))
                           (write iB (S kB) w)))
          with (read iA (write iB (S kB) w)).
        change (read iB (emit (forwarded hnB (ObsNext oB (project v kB)))
                           (write iB (S kB) w)))
          with (read iB (write iB (S kB) w)).
        rewrite read_write, read_write_other by auto.
        change (now (write iB (S kB) w)) with (now w).
        change (trace (write iB (S kB) w)) with (trace w).
        rewrite Hnow, Htr. repeat split; assumption. }
      exists w'. split; [exact Hrun|].
      now rewrite Htr', fmap_app, app_assoc.
Qed.

End TwoActivations.

Section TwoSubscriptions.
Context {V : Type}.

(** Two subscriptions to one [map(project)(source)], both alive. *)
Lemma two_activations_count_apart (project : V → nat → V) (t : nat) (v : V)
    (td : TeardownLogic) (oA oB : string) (hnA heA hcA hnB heB hcB : bool)
    (fuel : nat) (turns : list (bool * V)) (w : World V) :
  let stream := map project (new_Observable (timed [(t, v)] td)) in
  let dA := mkSubscriber (next_object w) (UserObserver oA hnA heA hcA) "map" in
  let dB := mkSubscriber (S (S (next_object w)))
              (UserObserver oB hnB heB hcB) "map" in
  let uA := mkSubscriber (S (next_object w))
              (MapObserver project (next_variable w) dA) "user" in
  let uB := mkSubscriber (S (S (S (next_object w))))
              (MapObserver project (S (next_variable w)) dB) "user" in
  ∃ w1 w2 w3,
    Observable_subscribe stream (UserObserver oA hnA heA hcA) fuel w
    = Some (dA, w1) ∧
    Observable_subscribe stream (UserObserver oB hnB heB hcB) fuel w1
    = Some (dB, w2) ∧
    timers w2
    = timers w ++ [mkTimer (next_handle w) (now w + t) (TimerNext uA v);
                   mkTimer (S (next_handle w)) (now w + t) (TimerNext uB v)] ∧
    calls fuel (hand_over uA uB turns) w2 = Some w3 ∧
    trace w3
    = trace w ++ ((fun e => (now w, e)) <$>
                    counted_apart project oA oB hnA hnB 0 0 turns).
Proof.
  intros stream dA dB uA uB.
  destruct (timed_map_activation project t v td oA hnA heA hcA fuel w)
    as (w1 & Hsub1 & Htm1 & Hno1 & Hnv1 & Hnh1 & Hnow1 & Htr1 & HuA1 & HdA1
        & HiA1 & _ & _).
  destruct (timed_map_activation project t v td oB hnB heB hcB fuel w1)
    as (w2 & Hsub2 & Htm2 & _ & _ & _ & Hnow2 & Htr2 & HuB2 & HdB2 & HiB2
        & Hobj2 & Hread2).
  rewrite Hno1, Hnv1 in *. rewrite Hnh1, Hnow1, Htm1 in Htm2.
  destruct (turns_count_apart project oA oB hnA heA hcA hnB heB hcB
              (next_variable w) (S (next_variable w))
              (S (next_object w)) (S (S (S (next_object w))))
              (next_object w) (S (S (next_object w)))
              "map" "map" "user" "user" fuel turns 0 0 (now w) (trace w) w2)
    as (w3 & Hrun & Htr3).
  { unfold both_running.
    rewrite (Hread2 (next_variable w)) by lia.
    rewrite (Hobj2 (S (next_object w))), (Hobj2 (next_object w)) by lia.
    rewrite Hnow2, Hnow1, Htr2, Htr1.
    repeat split; try assumption. lia. }
  exists w1, w2, w3. split; [exact Hsub1|]. split; [exact Hsub2|].
  split; [now rewrite Htm2, <- app_assoc|]. split; [exact Hrun|exact Htr3].
Qed.

End TwoSubscriptions.

(** C6: the producer of [map(project)(upstream)] creates a counter at 0 on
    every activation and subscribes upstream with an observer whose [next]
    forwards [project(v, i++)] and whose [error] and [complete] forward
    unchanged; so a subscriber sees the values of one activation projected
    with the indices 0, 1, 2, ..., a second subscription starts again at 0,
    and [map(x => x * 2)] on 1, 2, 3 yields 2, 4, 6 with indices 0, 1, 2.
    The counters of two activations are different cells: with two
    subscriptions alive at once, the endpoints their sources hold count
    each for itself, however the values of the two are interleaved. *)
Theorem C6_map_projects_with_index :
  (∀ (V : Type) (project : V → nat → V) (observable : Observable V)
     (subscriber : Subscriber V) (fuel : nat) (w : World V),
      _subscribe (map project observable) subscriber fuel w
      = '(s, w') ← Observable_subscribe observable
                     (MapObserver project (next_variable w) subscriber)
                     fuel (alloc_variable 0 w).2;
        Some (Some (TdSubscription (Subscriber_loc s)), w')) ∧
  (∀ (V : Type) (w : World V),
      read (next_variable w) (alloc_variable 0 w).2 = 0) ∧
  (∀ (V : Type) (project : V → nat → V) (i u : loc) (ds : Subscriber V)
     (ty : string) (v : V) (fuel : nat) (w : World V),
      let inline := mkSubscriber u (MapObserver project i ds) ty in
      Subscriber_next inline v w
      = (if isStopped (object_at w u) then w
         else Subscriber_next ds (project v (read i w))
                (write i (S (read i w)) w)) ∧
      Subscriber_error inline v w = Subscriber_error ds v (set_isStopped u w) ∧
      Subscriber_complete fuel inline w
      = w' ← Subscriber_complete fuel ds (set_isStopped u w);
        Subscription_unsubscribe fuel u w') ∧
  (∀ (V : Type) (project : V → nat → V) (script : list (Notification V))
     (o o' : string) (hn he hc : bool) (fuel : nat) (w : World V),
      let stream := map project (new_Observable (synchronous script None)) in
      ∃ s w' s' w'',
        Observable_subscribe stream (UserObserver o hn he hc) (S fuel) w
        = Some (s, w') ∧
        trace w'
        = trace w ++ ((fun e => (now w, e)) <$>
                        map_events project o hn he hc 0 false script) ∧
        Observable_subscribe stream (UserObserver o' hn he hc) (S fuel) w'
        = Some (s', w'') ∧
        trace w''
        = trace w' ++ ((fun e => (now w, e)) <$>
                         map_events project o' hn he hc 0 false script)) ∧
  (∀ (V : Type) (project : V → nat → V) (o : string) (a b c err : V),
      map_events project o true true true 0 false [N a; N b; N c; C]
      = [ObsNext o (project a 0); ObsNext o (project b 1);
         ObsNext o (project c 2); ObsComplete o] ∧
      map_events project o true true true 0 false [N a; E err; N b]
      = [ObsNext o (project a 0); ObsError o err]) ∧
  (received "o" <$>
     (snd <$> Observable_subscribe
                (map (fun x _ => (x * 2)%Z)
                     (new_Observable (synchronous [N 1%Z; N 2%Z; N 3%Z] None)))
                (full "o") 1 empty_world)
   = Some [(0, 2%Z); (0, 4%Z); (0, 6%Z)]) ∧
  (received "o" <$>
     (snd <$> Observable_subscribe
                (map (fun _ index => Z.of_nat index)
                     (new_Observable (synchronous [N 1%Z; N 2%Z; N 3%Z] None)))
                (full "o") 1 empty_world)
   = Some [(0, 0%Z); (0, 1%Z); (0, 2%Z)]) ∧
  (∀ (V : Type) (project : V → nat → V) (t : nat) (v : V)
     (td : TeardownLogic) (oA oB : string) (hnA heA hcA hnB heB hcB : bool)
     (fuel : nat) (turns : list (bool * V)) (w : World V),
      let stream := map project (new_Observable (timed [(t, v)] td)) in
      let dA := mkSubscriber (next_object w)
                  (UserObserver oA hnA heA hcA) "map" in
      let dB := mkSubscriber (S (S (next_object w)))
                  (UserObserver oB hnB heB hcB) "map" in
      let uA := mkSubscriber (S (next_object w))
                  (MapObserver project (next_variable w) dA) "user" in
      let uB := mkSubscriber (S (S (S (next_object w))))
                  (MapObserver project (S (next_variable w)) dB) "user" in
      ∃ w1 w2 w3,
        Observable_subscribe stream (UserObserver oA hnA heA hcA) fuel w
        = Some (dA, w1) ∧
        Observable_subscribe stream (UserObserver oB hnB heB hcB) fuel w1
        = Some (dB, w2) ∧
        timers w2
        = timers w ++ [mkTimer (next_handle w) (now w + t) (TimerNext uA v);
                       mkTimer (S (next_handle w)) (now w + t)
                               (TimerNext uB v)] ∧
        calls fuel (hand_over uA uB turns) w2 = Some w3 ∧
        trace w3
        = trace w ++ ((fun e => (now w, e)) <$>
                        counted_apart project oA oB hnA hnB 0 0 turns)) ∧
  (let stream := map (fun _ index => Z.of_nat index)
                     (new_Observable (timed [(10, 7%Z); (20, 8%Z)] None)) in
   w1 ← snd <$> Observable_subscribe stream (full "A") 1 empty_world;
   w2 ← snd <$> Observable_subscribe stream (full "B") 1 w1;
   trace <$> run_until 8 100 w2)
  = Some [(10, ObsNext "A" 0%Z); (10, ObsNext "B" 0%Z);
          (20, ObsNext "A" 1%Z); (20, ObsNext "B" 1%Z)].
Proof.
  split; [reflexivity|].
  split; [intros V w; unfold read, alloc_variable; cbn [variables snd];
          now rewrite lookup_insert_eq|].
  split.
  { intros V project i u ds ty v fuel w inline. unfold inline.
    split; [apply map_upstream_next|]. split; reflexivity. }
  split.
  { intros V project script o o' hn he hc fuel w stream.
    destruct (map_subscribe project script o hn he hc fuel w)
      as (w' & Hsub & Htr & Hnow).
    destruct (map_subscribe project script o' hn he hc fuel w')
      as (w'' & Hsub' & Htr' & Hnow').
    eexists _, w', _, w''. rewrite Hnow in Htr'.
    split; [exact Hsub|]. split; [exact Htr|].
    split; [exact Hsub'|exact Htr']. }
  split; [intros; split; reflexivity|].
  split; [vm_compute; reflexivity|].
  split; [vm_compute; reflexivity|].
  split; [|vm_compute; reflexivity].
  intros V project t v td oA oB hnA heA hcA hnB heB hcB fuel turns w
         stream dA dB uA uB.
  apply two_activations_count_apart.
Qed.
